(** * Social Insecurity: the request-time admission controls of [routes.py]

    The development embeds the three process-local limiter maps of
    [social_insecurity/routes.py] ([last_post_times], [upload_history],
    [login_attempts]) and the handlers that read or write them
    ([rate_limit_post_requests], [index], [stream]), and states the
    properties of the POST cooldown, the upload window and the login-attempt
    tracker over that embedding.

    Conventions.
    - [time.time()] returns a Python float.  A float is the rational it
      denotes ([Q]); the times a handler works with are inputs of the model:
      the product [time.time() * 1000] of line 51 as computed, and the
      readings of lines 93 and 158.  Differences and sums of such times are
      taken exactly, as binary64 does for timestamps of one epoch, which are
      multiples of one unit in the last place.  [int(x)] on a float truncates
      toward zero ([py_int]).
    - Python dictionaries are [gmap]s; [d.get(k, v)] is [default v (d !! k)],
      [d[k]] on a missing key raises [KeyError].  An exception that leaves a
      view ([KeyError] on line 93, [AttributeError] on line 149, the error of
      a failing [save] on line 172) is answered by Flask with a 500 response
      ([InternalServerError]); what the view wrote to the maps before it
      stays written.
    - What a handler obtains from its collaborators (the form objects, the
      SQLite wrapper, werkzeug) is part of the request record: each field
      names the call whose result it holds.
    - What a handler does to its collaborators (flashed messages, the
      session, saved files, inserted rows) is the ordered list of [effect]s
      it returns. *)

From Stdlib Require Import ZArith QArith Qround Lqa Lia List String.
From stdpp Require Import gmap strings list fin_maps.

Local Open Scope string_scope.
Local Open Scope Z_scope.

(** ** Python primitives *)

(** [int(x)] for a float [x]: truncation toward zero. *)
Definition py_int (x : Q) : Z := Z.quot (Qnum x) (Z.pos (Qden x)).

(** [a < b] on numbers, as a boolean. *)
Definition Qltb (a b : Q) : bool :=
  match (a ?= b)%Q with
  | Lt => true
  | _ => false
  end.

(** Truthiness of a form field holding [None] or a string. *)
Definition truthy (field : option string) : bool :=
  match field with
  | Some s => negb (String.eqb s "")
  | None => false
  end.

(** ** config.py *)

Record config := {
  UPLOADS_FOLDER_PATH : string;
  ALLOWED_EXTENSIONS : list string;
  COOLDOWN_MS : Z;
  UPLOAD_LIMIT : Z;
  UPLOAD_WINDOW : Z;
  MAX_LOGIN_ATTEMPTS : Z;
  LOGIN_COOLDOWN : Z
}.

(** The values of [class Config]. *)
Definition Config : config := {|
  UPLOADS_FOLDER_PATH := "uploads";
  ALLOWED_EXTENSIONS := [".jpeg"; ".jpg"; ".gif"; ".png"; ".webp"];
  COOLDOWN_MS := 1000;
  UPLOAD_LIMIT := 5;
  UPLOAD_WINDOW := 60;
  MAX_LOGIN_ATTEMPTS := 5;
  LOGIN_COOLDOWN := 3600
|}.

(** ** The limiter maps *)

(** Keys of [last_post_times]: [session["user_id"]] (an integer) when logged
    in, [request.remote_addr] (a string) otherwise.  An integer and a string
    are never equal as dictionary keys. *)
Inductive identity :=
  | UserKey (user_id : Z)
  | AddrKey (remote_addr : string).

#[global] Instance identity_eq_dec : EqDecision identity.
Proof. solve_decision. Defined.

Definition identity_to_sum (k : identity) : Z + string :=
  match k with
  | UserKey i => inl i
  | AddrKey a => inr a
  end.

Definition identity_of_sum (s : Z + string) : identity :=
  match s with
  | inl i => UserKey i
  | inr a => AddrKey a
  end.

#[global] Instance identity_countable : Countable identity.
Proof.
  refine (inj_countable' identity_to_sum identity_of_sum _).
  intros []; reflexivity.
Defined.

(** A value of [login_attempts]: [{"attempts": n, "last_attempt": t}]. *)
Record attempt_record := {
  attempts : Z;
  last_attempt : Q
}.

(** The three module-level dictionaries. *)
Record limiter_state := {
  last_post_times : gmap identity Q;
  upload_history : gmap Z (list Q);
  login_attempts : gmap string attempt_record
}.

(** [last_post_times = {}; upload_history = {}; login_attempts = {}] *)
Definition initial_state : limiter_state := {|
  last_post_times := ∅;
  upload_history := ∅;
  login_attempts := ∅
|}.

Definition set_last_post_times (m : gmap identity Q) (st : limiter_state) : limiter_state :=
  {| last_post_times := m;
     upload_history := upload_history st;
     login_attempts := login_attempts st |}.

Definition set_upload_history (m : gmap Z (list Q)) (st : limiter_state) : limiter_state :=
  {| last_post_times := last_post_times st;
     upload_history := m;
     login_attempts := login_attempts st |}.

Definition set_login_attempts (m : gmap string attempt_record) (st : limiter_state) : limiter_state :=
  {| last_post_times := last_post_times st;
     upload_history := upload_history st;
     login_attempts := m |}.

(** ** Responses and effects *)

(** The JSON bodies of the two 429 answers. *)
Inductive error_body :=
  | RateLimitWait (wait_time : Z)
      (* {"error": f"Rate limit: wait {wait_time}ms before next POST."} *)
  | TooManyUploads (upload_limit : Z).
      (* {"error": "Too many uploads",
          "message": f"Limit is {upload_limit} uploads per {upload_limit} seconds."} *)

Inductive response :=
  | Redirect (endpoint : string) (username : option string)
  | RenderTemplate (template : string)
  | Json (body : error_body) (status : Z)
  | InternalServerError
  | RouteResponse.

(** The calls by which a view acts on its collaborators. *)
Inductive effect :=
  | Flash (message category : string)
      (* flash(message, category=category) *)
  | SetSessionUserId (user_id : option Z)
      (* session["user_id"] = user_id *)
  | SaveFile (folder filename : string)
      (* post_form.image.data.save(instance_path / folder / filename): the
         call, whether it returns or raises *)
  | CreatePost (u_id : Z) (content image : string)
      (* sqlite.create_post(u_id, content, image): the INSERT into Posts *)
  | CreateUser (username first_name last_name pw_hash : string).
      (* sqlite.create_user(...): the INSERT into Users *)

Record handler_result := {
  hr_response : response;
  hr_effects : list effect;
  hr_state : limiter_state
}.

Definition finish (r : response) (es : list effect) (st : limiter_state) : handler_result :=
  {| hr_response := r; hr_effects := es; hr_state := st |}.

(** ** Requests *)

(** What [index] reads from the forms and its collaborators. *)
Record index_request := {
  ix_current_user : option string;
      (* get_current_user_data(): the username of the session's user *)
  login_submitted : bool;
      (* login_form.is_submitted() and login_form.submit.data *)
  login_username : option string;
  login_password : option string;
  user_password : option string;
      (* sqlite.get_user_password(login_form.username.data) *)
  user_id : option Z;
      (* sqlite.get_user_id(login_form.username.data) *)
  password_matches : bool;
      (* check_password_hash(user_password, login_form.password.data) *)
  register_submitted : bool;
      (* register_form.is_submitted() and register_form.submit.data *)
  register_username : option string;
  register_password : option string;
  register_first_name : option string;
  register_last_name : option string;
  pw_hash : string;
      (* generate_password_hash(register_form.password.data) *)
  create_user_ok : bool
      (* whether the INSERT of sqlite.create_user succeeds *)
}.

(** [post_form.image.data] when it is a [FileStorage]. *)
Record file_storage := {
  filename : string;
      (* secure_filename(post_form.image.data.filename) *)
  extension : string;
      (* Path(filename).suffix *)
  image_data : bool;
      (* truthiness of post_form.image.data *)
  save_ok : bool
      (* whether post_form.image.data.save(path) returns, for a path that
         names a file *)
}.

(** What [stream] reads from the URL, the form and its collaborators. *)
Record stream_request := {
  url_username : string;
  user : option Z;
      (* sqlite.get_user_data(username): the row's id *)
  st_current_user : option string;
      (* get_current_user_data(): the username of the session's user *)
  post_submitted : bool;
      (* post_form.is_submitted() *)
  image : option file_storage;
      (* post_form.image.data: None, or a FileStorage *)
  content : string;
  create_post_ok : bool
      (* whether the INSERT of sqlite.create_post succeeds *)
}.

(** [comments], [friends], [profile], [uploads] and [logout] mention none of
    the three maps; one constructor stands for them. *)
Inductive route :=
  | RouteIndex (rq : index_request)
  | RouteStream (rq : stream_request)
  | RouteOther (endpoint : string).

Record request := {
  method : string;
  session : option Z;       (* session["user_id"], when present *)
  remote_addr : string;
  target : route
}.

(** ** routes.py *)

Definition is_logged_in (session : option Z) : bool :=
  match session with
  | Some _ => true
  | None => false
  end.

(** Lines 46-49: the key under which a request is rate limited. *)
Definition request_identity (rq : request) : identity :=
  match session rq with
  | Some uid => UserKey uid              (* is_logged_in(): session["user_id"] *)
  | None => AddrKey (remote_addr rq)     (* request.remote_addr *)
  end.

(** [rate_limit_post_requests], the [before_request] hook.  [now] is the value
    line 51 computes, the float [time.time() * 1000]; [None] lets the request
    through. *)
Definition rate_limit_post_requests (cfg : config) (rq : request) (now : Q)
    (times : gmap identity Q) : option response * gmap identity Q :=
  if negb (String.eqb (method rq) "POST") then (None, times)
  else
    let user_id := request_identity rq in
    let last_time := default 0%Q (times !! user_id) in
    if Qltb (now - last_time) (inject_Z (COOLDOWN_MS cfg)) then
      let wait_time := py_int (inject_Z (COOLDOWN_MS cfg) - (now - last_time)) in
      (Some (Json (RateLimitWait wait_time) 429), times)
    else (None, <[user_id := now]> times).

(** The record [login_attempts.get(username, {})] and its
    [.get("attempts", 0)]. *)
Definition attempts_of (m : gmap string attempt_record) (username : string) : Z :=
  match m !! username with
  | Some r => attempts r
  | None => 0
  end.

Definition too_many_attempts : effect :=
  Flash "Too many login attempts, please try again later." "danger".

Definition wrong_credentials : effect :=
  Flash "Wrong username or password!" "warning".

Definition fill_out_all_fields : effect :=
  Flash "Please fill out all fields!" "warning".

(** [index].  [now] is the reading of [time.time()] on line 93. *)
Definition index (cfg : config) (session : option Z) (rq : index_request)
    (now : Q) (st : limiter_state) : handler_result :=
  if is_logged_in session then
    match ix_current_user rq with
    | None => finish (Redirect "logout" None) [] st
    | Some username => finish (Redirect "stream" (Some username)) [] st
    end
  else if login_submitted rq then
    if negb (truthy (login_username rq)) || negb (truthy (login_password rq)) then
      finish (Redirect "index" None) [fill_out_all_fields] st
    else
      let username := default "" (login_username rq) in
      match user_password rq with
      | None =>
          finish (RenderTemplate "index.html") [wrong_credentials] st
      | Some _ =>
          if MAX_LOGIN_ATTEMPTS cfg <=? attempts_of (login_attempts st) username then
            match login_attempts st !! username with
            | None => finish InternalServerError [] st
            | Some r =>
                if Qltb (last_attempt r) (now + inject_Z (LOGIN_COOLDOWN cfg)) then
                  finish (RenderTemplate "index.html") [too_many_attempts] st
                else
                  finish (RenderTemplate "index.html") []
                    (set_login_attempts
                       (<[username := {| attempts := 0; last_attempt := 0 |}]>
                          (login_attempts st)) st)
            end
          else if negb (password_matches rq) then
            finish (RenderTemplate "index.html") [wrong_credentials] st
          else
            finish (Redirect "stream" (Some username))
              [SetSessionUserId (user_id rq)] st
      end
  else if register_submitted rq then
    if negb (truthy (register_username rq)) || negb (truthy (register_password rq))
       || negb (truthy (register_first_name rq)) || negb (truthy (register_last_name rq)) then
      finish (Redirect "index" None) [fill_out_all_fields] st
    else
      let create :=
        CreateUser (default "" (register_username rq))
                   (default "" (register_first_name rq))
                   (default "" (register_last_name rq)) (pw_hash rq) in
      if negb (create_user_ok rq) then
        finish (Redirect "index" None)
          [create; Flash "Failed to create user!" "warning"] st
      else
        finish (Redirect "index" None)
          [create; Flash "User successfully created!" "success"] st
  else finish (RenderTemplate "index.html") [] st.

(** Line 161: the list comprehension
    [[t for t in timestamps if now - t < app.config["UPLOAD_WINDOW"]]]. *)
Definition prune (cfg : config) (now : Q) (timestamps : list Q) : list Q :=
  List.filter (fun t => Qltb (now - t) (inject_Z (UPLOAD_WINDOW cfg))) timestamps.

(** Whether [post_form.image.data.save(path)] of line 172 returns.  The
    uploads folder exists (the package creates it at start-up), so under the
    empty secured name the path is that folder itself and [save] raises. *)
Definition save_returns (file : file_storage) : bool :=
  save_ok file && negb (String.eqb (filename file) "").

(** [stream].  [now] is the reading of [time.time()] on line 158. *)
Definition stream (cfg : config) (session : option Z) (rq : stream_request)
    (now : Q) (st : limiter_state) : handler_result :=
  match session with
  | None => finish (Redirect "index" None) [] st
  | Some session_user_id =>
      let username := url_username rq in
      let not_own_stream :=
        match st_current_user rq with
        | None => finish (Redirect "index" None) [] st
        | Some current => finish (Redirect "stream" (Some current)) [] st
        end in
      match user rq with
      | None => not_own_stream
      | Some id =>
          if negb (session_user_id =? id) then not_own_stream
          else if post_submitted rq then
            match image rq with
            | None => finish InternalServerError [] st
                (* line 149: None has no attribute filename *)
            | Some file =>
                if negb (String.eqb (filename file) "")
                   && negb (bool_decide (extension file ∈ ALLOWED_EXTENSIONS cfg)) then
                  finish (Redirect "stream" (Some username))
                    [Flash "Illegal file extension" "warning"] st
                else
                  let create := CreatePost id (content rq) (filename file) in
                  let failed :=
                    if negb (create_post_ok rq)
                    then [Flash "Failed to create post!" "warning"] else [] in
                  if image_data file then
                    let user_id := session_user_id in
                    let timestamps := default [] (upload_history st !! user_id) in
                    let timestamps := prune cfg now timestamps in
                    let upload_limit := UPLOAD_LIMIT cfg in
                    if upload_limit <=? Z.of_nat (length timestamps) then
                      finish (Json (TooManyUploads upload_limit) 429) [] st
                    else
                      let timestamps := (timestamps ++ [now])%list in
                      let st :=
                        set_upload_history
                          (<[user_id := timestamps]> (upload_history st)) st in
                      let save := SaveFile (UPLOADS_FOLDER_PATH cfg) (filename file) in
                      if save_returns file then
                        finish (Redirect "stream" (Some username))
                          (save :: create :: failed) st
                      else finish InternalServerError [save] st
                  else
                    finish (Redirect "stream" (Some username)) (create :: failed) st
            end
          else finish (RenderTemplate "stream.html") [] st
      end
  end.

(** One request through the application: the [before_request] hook, then the
    view.  [now_ms] is the hook's [time.time() * 1000], [now] the view's
    reading of [time.time()]. *)
Definition handle_request (cfg : config) (rq : request) (now_ms now : Q)
    (st : limiter_state) : handler_result :=
  match rate_limit_post_requests cfg rq now_ms (last_post_times st) with
  | (Some denied, times) => finish denied [] (set_last_post_times times st)
  | (None, times) =>
      let st := set_last_post_times times st in
      match target rq with
      | RouteIndex irq => index cfg (session rq) irq now st
      | RouteStream srq => stream cfg (session rq) srq now st
      | RouteOther _ => finish RouteResponse [] st
      end
  end.

(** A request together with the two times computed while serving it: the
    hook's [time.time() * 1000] and the view's [time.time()]. *)
Record event := {
  ev_request : request;
  ev_now_ms : Q;
  ev_now : Q
}.

(** The limiter state after serving [evs] in order, from [st]. *)
Definition run_from (cfg : config) (st : limiter_state) (evs : list event) : limiter_state :=
  fold_left
    (fun st ev => hr_state (handle_request cfg (ev_request ev) (ev_now_ms ev) (ev_now ev) st))
    evs st.

(** The limiter state after serving [evs] since process start. *)
Definition run (cfg : config) (evs : list event) : limiter_state :=
  run_from cfg initial_state evs.

(** ** Sample requests *)

(** A POST by the logged-in user 1 to a view other than [index] and
    [stream]. *)
Definition post_by_user_1 : request := {|
  method := "POST";
  session := Some 1;
  remote_addr := "10.0.0.7";
  target := RouteOther "comments"
|}.

(** User 1 was last admitted at 1700000000000 ms. *)
Definition user_1_admitted : gmap identity Q :=
  <[UserKey 1 := 1700000000000%Q]> ∅.

(** User 1 was last admitted at 1700000000000.5 ms. *)
Definition user_1_admitted_half : gmap identity Q :=
  <[UserKey 1 := 3400000000001 # 2]> ∅.

(** A [stream] request that reaches the upload check of lines 156-169: the
    session's user views their own stream, the form is submitted,
    [post_form.image.data] is a [FileStorage] whose extension passes line 152
    and which is truthy. *)
Definition reaches_upload_check (cfg : config) (session_user_id : Z)
    (rq : stream_request) : bool :=
  match user rq, image rq with
  | Some id, Some file =>
      (session_user_id =? id)
      && post_submitted rq
      && negb (negb (String.eqb (filename file) "")
               && negb (bool_decide (extension file ∈ ALLOWED_EXTENSIONS cfg)))
      && image_data file
  | _, _ => false
  end.

(** The pruning as C5 first words it: only the timestamps older than
    [now - UPLOAD_WINDOW] are discarded. *)
Definition prune_older (cfg : config) (now : Q) (timestamps : list Q) : list Q :=
  List.filter (fun t => negb (Qltb t (now - inject_Z (UPLOAD_WINDOW cfg)))) timestamps.

(** The number of timestamps of [l] in the trailing interval
    [(x - UPLOAD_WINDOW, x]]. *)
Definition count_trailing (cfg : config) (x : Q) (l : list Q) : nat :=
  length (List.filter
            (fun t => Qltb (x - t) (inject_Z (UPLOAD_WINDOW cfg)) && Qle_bool t x) l).

(** User 2 posts [cat.png] on their own stream. *)
Definition upload_by_user_2 : stream_request := {|
  url_username := "u2";
  user := Some 2;
  st_current_user := Some "u2";
  post_submitted := true;
  image := Some {| filename := "cat.png"; extension := ".png";
                   image_data := true; save_ok := true |};
  content := "look";
  create_post_ok := true
|}.

Definition post_upload_by_user_2 : request := {|
  method := "POST";
  session := Some 2;
  remote_addr := "10.0.0.8";
  target := RouteStream upload_by_user_2
|}.

(** An upload by user 2 served at second [t] (after 1700000000). *)
Definition upload_at (t : Z) : event := {|
  ev_request := post_upload_by_user_2;
  ev_now_ms := inject_Z ((1700000000 + t) * 1000);
  ev_now := inject_Z (1700000000 + t)
|}.

(** Whether a response is an HTTP 429. *)
Definition is_429 (r : response) : bool :=
  match r with
  | Json _ status => status =? 429
  | _ => false
  end.

(** The tracker states of a username, as the spec names them: [CLEAR]
    (attempts = 0), [ACCUMULATING] (0 < attempts < max), [LOCKED]
    (attempts >= max, the test of line 92). *)
Inductive lock_state := CLEAR | ACCUMULATING | LOCKED.

Definition lock_state_of (cfg : config) (m : gmap string attempt_record)
    (username : string) : lock_state :=
  if MAX_LOGIN_ATTEMPTS cfg <=? attempts_of m username then LOCKED
  else if attempts_of m username =? 0 then CLEAR
  else ACCUMULATING.

(** A login submission for [username] with both fields filled in, by a user
    the database knows: the requests that get past line 90. *)
Definition login_attempt_by (rq : index_request) (username : string) : bool :=
  login_submitted rq
  && bool_decide (login_username rq = Some username)
  && negb (String.eqb username "")
  && truthy (login_password rq)
  && bool_decide (is_Some (user_password rq)).

(** Bob (user 7) submits the login form with a wrong password. *)
Definition bob_wrong_password : index_request := {|
  ix_current_user := None;
  login_submitted := true;
  login_username := Some "bob";
  login_password := Some "guess";
  user_password := Some "scrypt:32768:8:1$salt$hash";
  user_id := Some 7;
  password_matches := false;
  register_submitted := false;
  register_username := None;
  register_password := None;
  register_first_name := None;
  register_last_name := None;
  pw_hash := "";
  create_user_ok := false
|}.

(** Bob submits the login form with his password. *)
Definition bob_right_password : index_request := {|
  ix_current_user := None;
  login_submitted := true;
  login_username := Some "bob";
  login_password := Some "hunter2";
  user_password := Some "scrypt:32768:8:1$salt$hash";
  user_id := Some 7;
  password_matches := true;
  register_submitted := false;
  register_username := None;
  register_password := None;
  register_first_name := None;
  register_last_name := None;
  pw_hash := "";
  create_user_ok := false
|}.

(** A failed login of Bob served at second [t] (after 1700000000). *)
Definition bob_fails_at (t : Z) : event := {|
  ev_request := {| method := "POST"; session := None;
                   remote_addr := "10.0.0.9";
                   target := RouteIndex bob_wrong_password |};
  ev_now_ms := inject_Z ((1700000000 + t) * 1000);
  ev_now := inject_Z (1700000000 + t)
|}.

(** A store in which Bob has [n] recorded attempts, the last at second [t]
    (after 1700000000). *)
Definition bob_recorded (n t : Z) : limiter_state :=
  set_login_attempts
    (<["bob" := {| attempts := n; last_attempt := inject_Z (1700000000 + t) |}]> ∅)
    initial_state.

(** Every stored sequence of [upload_history] holds at most [UPLOAD_LIMIT]
    timestamps. *)
Definition bounded_history (cfg : config) (st : limiter_state) : Prop :=
  forall (uid : Z) (l : list Q),
    upload_history st !! uid = Some l -> Z.of_nat (length l) <= UPLOAD_LIMIT cfg.

(** ** The other views of routes.py *)

(** What [comments], [friends], [profile] and [logout] do to their
    collaborators. *)
Inductive view_effect :=
  | Flashed (message category : string)
      (* flash(message, category=category) *)
  | CreateComment (p_id u_id : Z) (comment : string)
      (* sqlite.create_comment(p_id, u_id, comment) *)
  | AddFriend (u_id f_id : Z)
      (* sqlite.add_friend(u_id, f_id) *)
  | UpdateProfile (username : string) (fields : list string)
      (* sqlite.update_profile(username, education, employment, music, movie,
         nationality, birthday) *)
  | ClearSession.
      (* session.clear() *)

Record view_result := {
  vr_response : response;
  vr_effects : list view_effect
}.

Definition answer (r : response) (es : list view_effect) : view_result :=
  {| vr_response := r; vr_effects := es |}.

(** What [comments] reads from the URL, the form and its collaborators. *)
Record comments_request := {
  cm_username : string;
  cm_post_id : Z;
  cm_user : option Z;
      (* sqlite.get_user_data(username): the row's id *)
  cm_current_user : option string;
      (* get_current_user_data(): the username of the session's user *)
  cm_submitted : bool;
      (* comments_form.is_submitted() *)
  cm_comment : string
      (* comments_form.comment.data *)
}.

(** What [friends] reads. *)
Record friends_request := {
  fr_username : string;
  fr_user : option Z;
      (* sqlite.get_user_data(username): the row's id *)
  fr_current_user : option string;
      (* get_current_user_data(): the username of the session's user *)
  fr_submitted : bool;
      (* friends_form.is_submitted() *)
  fr_friend : option Z;
      (* sqlite.get_user_data(friends_form.username.data): the row's id *)
  fr_friends : list Z;
      (* [friend["f_id"] for friend in sqlite.get_friends(user["id"])] *)
  fr_add_friend_ok : bool
      (* whether the INSERT of sqlite.add_friend succeeds *)
}.

(** What [profile] reads. *)
Record profile_request := {
  pf_username : string;
  pf_user : option Z;
      (* sqlite.get_user_data(username): the row's id *)
  pf_submitted : bool;
      (* profile_form.is_submitted() *)
  pf_fields : list string;
      (* education, employment, music, movie, nationality, birthday *)
  pf_update_ok : bool
      (* whether the UPDATE of sqlite.update_profile succeeds *)
}.

(** [comments]. *)
Definition comments (session : option Z) (rq : comments_request) : view_result :=
  match session with
  | None => answer (Redirect "index" None) []
  | Some session_user_id =>
      let not_own_page :=
        match cm_current_user rq with
        | None => answer (Redirect "index" None) []
        | Some current => answer (Redirect "stream" (Some current)) []
        end in
      match cm_user rq with
      | None => not_own_page
      | Some id =>
          if negb (session_user_id =? id) then not_own_page
          else if cm_submitted rq then
            answer (RenderTemplate "comments.html")
              [CreateComment (cm_post_id rq) id (cm_comment rq)]
          else answer (RenderTemplate "comments.html") []
      end
  end.

(** [friends]. *)
Definition friends (session : option Z) (rq : friends_request) : view_result :=
  match session with
  | None => answer (Redirect "index" None) []
  | Some session_user_id =>
      let username := fr_username rq in
      let not_own_page :=
        match fr_current_user rq with
        | None => answer (Redirect "index" None) []
        | Some current => answer (Redirect "friends" (Some current)) []
        end in
      match fr_user rq with
      | None => not_own_page
      | Some id =>
          if negb (session_user_id =? id) then not_own_page
          else if fr_submitted rq then
            match fr_friend rq with
            | None =>
                answer (RenderTemplate "friends.html")
                  [Flashed "User does not exist!" "warning"]
            | Some friend_id =>
                if friend_id =? id then
                  answer (RenderTemplate "friends.html")
                    [Flashed "You cannot be friends with yourself!" "warning"]
                else if bool_decide (friend_id ∈ fr_friends rq) then
                  answer (RenderTemplate "friends.html")
                    [Flashed "You are already friends with this user!" "warning"]
                else if negb (fr_add_friend_ok rq) then
                  answer (Redirect "friends" (Some username))
                    [AddFriend id friend_id;
                     Flashed "Failed to add friend!" "warning"]
                else
                  answer (RenderTemplate "friends.html")
                    [AddFriend id friend_id;
                     Flashed "Friend successfully added!" "success"]
            end
          else answer (RenderTemplate "friends.html") []
      end
  end.

(** [profile]. *)
Definition profile (session : option Z) (rq : profile_request) : view_result :=
  match session with
  | None => answer (Redirect "index" None) []
  | Some session_user_id =>
      let username := pf_username rq in
      match pf_user rq with
      | None => answer (Redirect "index" None) []
      | Some id =>
          let is_current_user := session_user_id =? id in
          if pf_submitted rq && is_current_user then
            if negb (pf_update_ok rq) then
              answer (Redirect "profile" (Some username))
                [UpdateProfile username (pf_fields rq);
                 Flashed "Failed to update profile!" "warning"]
            else
              answer (Redirect "profile" (Some username))
                [UpdateProfile username (pf_fields rq)]
          else answer (RenderTemplate "profile.html") []
      end
  end.

(** [logout]. *)
Definition logout : view_result :=
  answer (Redirect "index" None) [ClearSession].

(** ** Histories of admitted requests *)

(** Whether the hook lets the event through as a POST of identity [k]. *)
Definition post_admitted (cfg : config) (k : identity) (ev : event)
    (st : limiter_state) : bool :=
  String.eqb (method (ev_request ev)) "POST"
  && bool_decide (request_identity (ev_request ev) = k)
  && match fst (rate_limit_post_requests cfg (ev_request ev) (ev_now_ms ev)
                  (last_post_times st)) with
     | None => true
     | Some _ => false
     end.

(** The millisecond timestamps of the POSTs of identity [k] that the hook
    lets through while [evs] is served from [st], in order. *)
Fixpoint admitted_posts (cfg : config) (k : identity) (st : limiter_state)
    (evs : list event) : list Q :=
  match evs with
  | [] => []
  | ev :: evs' =>
      let st' :=
        hr_state (handle_request cfg (ev_request ev) (ev_now_ms ev) (ev_now ev) st) in
      if post_admitted cfg k ev st
      then ev_now_ms ev :: admitted_posts cfg k st' evs'
      else admitted_posts cfg k st' evs'
  end.

(** Each timestamp is at least [COOLDOWN_MS] after the one before it, the
    first after [last]. *)
Fixpoint spaced_from (cfg : config) (last : Q) (l : list Q) : Prop :=
  match l with
  | [] => True
  | t :: l' => (inject_Z (COOLDOWN_MS cfg) <= t - last)%Q /\ spaced_from cfg t l'
  end.

(** Whether the event is an upload of user [uid] that gets past the hook and
    the upload check. *)
Definition upload_admitted (cfg : config) (uid : Z) (ev : event)
    (st : limiter_state) : bool :=
  match session (ev_request ev), target (ev_request ev) with
  | Some u, RouteStream srq =>
      (u =? uid)
      && reaches_upload_check cfg u srq
      && negb (is_429 (hr_response
                         (handle_request cfg (ev_request ev) (ev_now_ms ev)
                            (ev_now ev) st)))
  | _, _ => false
  end.

(** The times of the uploads of user [uid] admitted while [evs] is served
    from [st], in order. *)
Fixpoint admitted_uploads (cfg : config) (uid : Z) (st : limiter_state)
    (evs : list event) : list Q :=
  match evs with
  | [] => []
  | ev :: evs' =>
      let st' :=
        hr_state (handle_request cfg (ev_request ev) (ev_now_ms ev) (ev_now ev) st) in
      if upload_admitted cfg uid ev st
      then ev_now ev :: admitted_uploads cfg uid st' evs'
      else admitted_uploads cfg uid st' evs'
  end.

(** The readings [ts] never go back, starting at or after [m]. *)
Fixpoint nondecreasing_from (m : Q) (ts : list Q) : Prop :=
  match ts with
  | [] => True
  | t :: ts' => (m <= t)%Q /\ nondecreasing_from t ts'
  end.

(** Each time [a] of [l] has fewer than [UPLOAD_LIMIT] times before it (in
    [earlier] or in [l]) that are less than [UPLOAD_WINDOW] old at [a]. *)
Fixpoint within_limit (cfg : config) (earlier l : list Q) : Prop :=
  match l with
  | [] => True
  | a :: l' =>
      Z.of_nat (length (prune cfg a earlier)) < UPLOAD_LIMIT cfg
      /\ within_limit cfg (earlier ++ [a])%list l'
  end.

(** ** More sample requests *)

(** Alice (user 1), whose only friend is user 3, names Bob (user 7) on her
    friends page. *)
Definition alice_adds_bob : friends_request := {|
  fr_username := "alice";
  fr_user := Some 1;
  fr_current_user := Some "alice";
  fr_submitted := true;
  fr_friend := Some 7;
  fr_friends := [3];
  fr_add_friend_ok := true
|}.

(** Alice submits her profile form. *)
Definition alice_edits_profile : profile_request := {|
  pf_username := "alice";
  pf_user := Some 1;
  pf_submitted := true;
  pf_fields := ["NTNU"; "student"; "jazz"; "Alien"; "Norwegian"; "2000-01-01"];
  pf_update_ok := true
|}.

(** Alice comments on post 42 from her own page. *)
Definition alice_comments : comments_request := {|
  cm_username := "alice";
  cm_post_id := 42;
  cm_user := Some 1;
  cm_current_user := Some "alice";
  cm_submitted := true;
  cm_comment := "nice"
|}.

(** A login submission for a username the database does not know. *)
Definition nobody_logs_in : index_request := {|
  ix_current_user := None;
  login_submitted := true;
  login_username := Some "bob";
  login_password := Some "guess";
  user_password := None;
  user_id := None;
  password_matches := false;
  register_submitted := false;
  register_username := None;
  register_password := None;
  register_first_name := None;
  register_last_name := None;
  pw_hash := "";
  create_user_ok := false
|}.

(** Carol registers. *)
Definition carol_registers : index_request := {|
  ix_current_user := None;
  login_submitted := false;
  login_username := None;
  login_password := None;
  user_password := None;
  user_id := None;
  password_matches := false;
  register_submitted := true;
  register_username := Some "carol";
  register_password := Some "s3cret";
  register_first_name := Some "Carol";
  register_last_name := Some "Jones";
  pw_hash := "scrypt:32768:8:1$salt2$hash2";
  create_user_ok := true
|}.

(** A configuration that locks nobody out: [MAX_LOGIN_ATTEMPTS = 0]. *)
Definition zero_attempts_config : config := {|
  UPLOADS_FOLDER_PATH := "uploads";
  ALLOWED_EXTENSIONS := [".jpeg"; ".jpg"; ".gif"; ".png"; ".webp"];
  COOLDOWN_MS := 1000;
  UPLOAD_LIMIT := 5;
  UPLOAD_WINDOW := 60;
  MAX_LOGIN_ATTEMPTS := 0;
  LOGIN_COOLDOWN := 3600
|}.

(** User 2 uploads [cat.png] while the INSERT of the post fails. *)
Definition upload_with_failing_insert : stream_request := {|
  url_username := "u2";
  user := Some 2;
  st_current_user := Some "u2";
  post_submitted := true;
  image := Some {| filename := "cat.png"; extension := ".png";
                   image_data := true; save_ok := true |};
  content := "look";
  create_post_ok := false
|}.

(** User 2 attaches a file whose name [secure_filename] reduces to the empty
    string. *)
Definition upload_with_empty_name : stream_request := {|
  url_username := "u2";
  user := Some 2;
  st_current_user := Some "u2";
  post_submitted := true;
  image := Some {| filename := ""; extension := "";
                   image_data := true; save_ok := true |};
  content := "look";
  create_post_ok := true
|}.

(** * Properties *)

(** ** Numbers *)

Lemma Qltb_lt (a b : Q) : Qltb a b = true <-> (a < b)%Q.
Proof.
  unfold Qltb. rewrite Qlt_alt.
  destruct (a ?= b)%Q; split; congruence.
Qed.

Lemma Qltb_ge (a b : Q) : Qltb a b = false <-> (b <= a)%Q.
Proof.
  rewrite <- not_true_iff_false, Qltb_lt. split.
  - apply Qnot_lt_le.
  - apply Qle_not_lt.
Qed.

(** On a non-negative number truncation is the floor. *)
Lemma py_int_floor (x : Q) : (0 <= x)%Q -> py_int x = Qfloor x.
Proof.
  destruct x as [n d]. unfold py_int, Qfloor, Qle. simpl.
  intros H. apply Z.quot_div_nonneg; lia.
Qed.

Lemma py_int_bounds (x : Q) :
  (0 <= x)%Q -> 0 <= py_int x /\ (inject_Z (py_int x) <= x)%Q /\ (x < inject_Z (py_int x) + 1)%Q.
Proof.
  intros H. rewrite (py_int_floor x H). split; [|split].
  - change 0 with (Qfloor 0). now apply Qfloor_resp_le.
  - apply Qfloor_le.
  - pose proof (Qlt_floor x) as Hlt.
    rewrite inject_Z_plus in Hlt. exact Hlt.
Qed.

Lemma py_int_whole (x : Q) (k : Z) : (x == inject_Z k)%Q -> py_int x = k.
Proof.
  destruct x as [n d]. unfold py_int, Qeq. simpl. intros H.
  replace n with (k * Z.pos d) by lia.
  apply Z.quot_mul. lia.
Qed.

(** ** The POST cooldown *)

Section Cooldown.
Variable cfg : config.

Lemma rate_limit_not_post (rq : request) (now_ms : Q) (times : gmap identity Q) :
  method rq <> "POST" ->
  rate_limit_post_requests cfg rq now_ms times = (None, times).
Proof.
  intros Hm. unfold rate_limit_post_requests.
  destruct (String.eqb_spec (method rq) "POST") as [E|E]; [contradiction|reflexivity].
Qed.

Lemma rate_limit_denied (rq : request) (now_ms : Q) (times : gmap identity Q) :
  method rq = "POST" ->
  (now_ms - default 0%Q (times !! request_identity rq)
     < inject_Z (COOLDOWN_MS cfg))%Q ->
  rate_limit_post_requests cfg rq now_ms times =
    (Some (Json (RateLimitWait
                   (py_int (inject_Z (COOLDOWN_MS cfg)
                            - (now_ms - default 0%Q (times !! request_identity rq)))))
                429), times).
Proof.
  intros Hm Hlt. unfold rate_limit_post_requests.
  rewrite Hm. simpl. apply Qltb_lt in Hlt. now rewrite Hlt.
Qed.

Lemma rate_limit_admitted (rq : request) (now_ms : Q) (times : gmap identity Q) :
  method rq = "POST" ->
  (inject_Z (COOLDOWN_MS cfg)
     <= now_ms - default 0%Q (times !! request_identity rq))%Q ->
  rate_limit_post_requests cfg rq now_ms times =
    (None, <[request_identity rq := now_ms]> times).
Proof.
  intros Hm Hge. unfold rate_limit_post_requests.
  rewrite Hm. simpl. apply Qltb_ge in Hge. now rewrite Hge.
Qed.

(** The hook answers [Some _] exactly when it leaves the map alone on a
    POST whose identity is still cooling down. *)
Lemma rate_limit_cases (rq : request) (now_ms : Q) (times : gmap identity Q) :
  (exists w, rate_limit_post_requests cfg rq now_ms times
             = (Some (Json (RateLimitWait w) 429), times))
  \/ rate_limit_post_requests cfg rq now_ms times = (None, times)
  \/ rate_limit_post_requests cfg rq now_ms times
     = (None, <[request_identity rq := now_ms]> times).
Proof.
  unfold rate_limit_post_requests.
  destruct (negb _); [right; left; reflexivity|].
  destruct (Qltb _ _); [left; eexists; reflexivity|right; right; reflexivity].
Qed.
End Cooldown.

(** C4 (as amended).  For a POST request, with [t2] the value of
    [time.time() * 1000] that the hook computes and [t1] the stored
    last-admitted timestamp of the request's identity (the session user id
    when logged in, the remote address otherwise; 0 when never seen): if
    [t2 - t1 < COOLDOWN_MS] the hook answers 429, leaves the map unchanged and
    reports [wait_ms = int(COOLDOWN_MS - (t2 - t1))], the difference truncated
    to whole milliseconds, which is non-negative, within one millisecond
    below the exact difference, and equal to it (hence positive) whenever the
    difference is a whole number; if [t2 - t1 >= COOLDOWN_MS] the request
    passes and [t2] becomes the identity's stored timestamp. *)
Theorem cooldown_admission (cfg : config) (rq : request) (t2 : Q)
    (times : gmap identity Q) :
  method rq = "POST" ->
  let key := request_identity rq in
  let t1 := default 0%Q (times !! key) in
  let cooldown := inject_Z (COOLDOWN_MS cfg) in
  ((t2 - t1 < cooldown)%Q ->
     exists wait_ms : Z,
       rate_limit_post_requests cfg rq t2 times
         = (Some (Json (RateLimitWait wait_ms) 429), times)
       /\ wait_ms = py_int (cooldown - (t2 - t1))
       /\ 0 <= wait_ms
       /\ (inject_Z wait_ms <= cooldown - (t2 - t1))%Q
       /\ (cooldown - (t2 - t1) < inject_Z wait_ms + 1)%Q
       /\ (forall k : Z, (cooldown - (t2 - t1) == inject_Z k)%Q -> wait_ms = k /\ 0 < k))
  /\ ((cooldown <= t2 - t1)%Q ->
       rate_limit_post_requests cfg rq t2 times = (None, <[key := t2]> times)
       /\ <[key := t2]> times !! key = Some t2).
Proof.
  intros Hm key t1 cooldown. split.
  - intros Hlt.
    exists (py_int (cooldown - (t2 - t1))).
    assert (Hpos : (0 < cooldown - (t2 - t1))%Q) by lra.
    destruct (py_int_bounds (cooldown - (t2 - t1))) as (H0 & Hle & Hub); [lra|].
    repeat split; trivial.
    + now apply rate_limit_denied.
    + now apply py_int_whole.
    + rewrite (py_int_whole _ _ H) in Hle, Hub.
      rewrite H in Hpos. unfold Qlt in Hpos. simpl in Hpos. lia.
  - intros Hge. split.
    + now apply rate_limit_admitted.
    + apply lookup_insert_eq.
Qed.

(** The spec's scenario at a present-day time: last admitted at
    1700000000000 ms, a POST 500 ms later is denied with [wait_ms = 500]. *)
Lemma cooldown_admission_witness :
  method post_by_user_1 = "POST"
  /\ rate_limit_post_requests Config post_by_user_1 (inject_Z 1700000000500)
       user_1_admitted
     = (Some (Json (RateLimitWait 500) 429), user_1_admitted).
Proof.
  split; [reflexivity|].
  destruct (cooldown_admission Config post_by_user_1 (inject_Z 1700000000500)
              user_1_admitted eq_refl) as [Hdenied _].
  destruct Hdenied as (w & Hrun & Hw & _); [vm_compute; reflexivity|].
  rewrite Hrun, Hw. reflexivity.
Defined.

(** C4, as first stated, fails when the elapsed time is not a whole number of
    milliseconds: with the last admission at 1700000000000.5 ms and
    [time.time() * 1000 = 1700000001000.0], 999.5 ms have elapsed, the request
    is denied, the exact remaining time is 0.5 ms, and the response carries
    [wait_ms = 0], which is neither that difference nor positive. *)
Lemma cooldown_wait_not_exact :
  let t2 := inject_Z 1700000001000 in
  let t1 := default 0%Q (user_1_admitted_half !! request_identity post_by_user_1) in
  (t2 - t1 == 1999 # 2)%Q
  /\ (t2 - t1 < inject_Z (COOLDOWN_MS Config))%Q
  /\ (inject_Z (COOLDOWN_MS Config) - (t2 - t1) == 1 # 2)%Q
  /\ rate_limit_post_requests Config post_by_user_1 t2 user_1_admitted_half
     = (Some (Json (RateLimitWait 0) 429), user_1_admitted_half)
  /\ ~ (inject_Z 0 == inject_Z (COOLDOWN_MS Config) - (t2 - t1))%Q
  /\ ~ 0 < 0.
Proof.
  repeat split; try (vm_compute; congruence).
Qed.

(** ** Which map each handler touches *)

Lemma set_last_post_times_id (st : limiter_state) :
  set_last_post_times (last_post_times st) st = st.
Proof. now destruct st. Qed.

Ltac handler_cases :=
  repeat match goal with
         | |- context [match ?x with _ => _ end] => destruct x eqn:?; simpl
         end.

Lemma index_frame (cfg : config) (session : option Z) (rq : index_request)
    (now : Q) (st : limiter_state) :
  last_post_times (hr_state (index cfg session rq now st)) = last_post_times st
  /\ upload_history (hr_state (index cfg session rq now st)) = upload_history st.
Proof. unfold index. handler_cases; split; reflexivity. Qed.

Lemma stream_frame (cfg : config) (session : option Z) (rq : stream_request)
    (now : Q) (st : limiter_state) :
  last_post_times (hr_state (stream cfg session rq now st)) = last_post_times st
  /\ login_attempts (hr_state (stream cfg session rq now st)) = login_attempts st.
Proof. unfold stream. handler_cases; split; reflexivity. Qed.

(** ** The upload window *)

Section UploadWindow.
Variable cfg : config.

Lemma prune_In (now : Q) (l : list Q) (t : Q) :
  In t (prune cfg now l) <-> In t l /\ (now - t < inject_Z (UPLOAD_WINDOW cfg))%Q.
Proof. unfold prune. now rewrite List.filter_In, Qltb_lt. Qed.

Lemma prune_length (now : Q) (l : list Q) :
  (length (prune cfg now l) <= length l)%nat.
Proof. apply List.filter_length_le. Qed.

Lemma count_trailing_le_prune (x : Q) (l : list Q) :
  (count_trailing cfg x l <= length (prune cfg x l))%nat.
Proof.
  unfold count_trailing, prune. induction l as [|t l IH]; simpl; [lia|].
  destruct (Qltb _ _); simpl; [destruct (Qle_bool t x); simpl; lia|lia].
Qed.

Lemma reaches_upload_check_file (uid : Z) (rq : stream_request) :
  reaches_upload_check cfg uid rq = true -> exists file, image rq = Some file.
Proof.
  unfold reaches_upload_check.
  destruct (user rq); [|discriminate].
  destruct (image rq) as [file|]; [eauto|discriminate].
Qed.

(** What [stream] does once the upload check is reached. *)
Lemma stream_upload (uid : Z) (rq : stream_request) (file : file_storage)
    (now : Q) (st : limiter_state) :
  image rq = Some file ->
  reaches_upload_check cfg uid rq = true ->
  stream cfg (Some uid) rq now st =
    let timestamps := prune cfg now (default [] (upload_history st !! uid)) in
    if UPLOAD_LIMIT cfg <=? Z.of_nat (length timestamps) then
      finish (Json (TooManyUploads (UPLOAD_LIMIT cfg)) 429) [] st
    else
      let st' :=
        set_upload_history
          (<[uid := (timestamps ++ [now])%list]> (upload_history st)) st in
      if save_returns file then
        finish (Redirect "stream" (Some (url_username rq)))
          (SaveFile (UPLOADS_FOLDER_PATH cfg) (filename file)
             :: CreatePost uid (content rq) (filename file)
             :: (if negb (create_post_ok rq)
                 then [Flash "Failed to create post!" "warning"] else []))
          st'
      else
        finish InternalServerError
          [SaveFile (UPLOADS_FOLDER_PATH cfg) (filename file)] st'.
Proof.
  unfold reaches_upload_check, stream. intros Hfile H. rewrite Hfile in *.
  destruct (user rq) as [id|]; [|discriminate].
  apply andb_prop in H as [H Himg]. apply andb_prop in H as [H Hext].
  apply andb_prop in H as [Hid Hsub].
  rewrite Hid, Hsub, Himg. simpl.
  apply negb_true_iff in Hext. rewrite Hext.
  apply Z.eqb_eq in Hid. subst id. reflexivity.
Qed.

(** A 429 from [stream] comes with no effect and no change of state. *)
Lemma stream_denied (session : option Z) (rq : stream_request) (now : Q)
    (st : limiter_state) (body : error_body) (status : Z) :
  hr_response (stream cfg session rq now st) = Json body status ->
  hr_effects (stream cfg session rq now st) = []
  /\ hr_state (stream cfg session rq now st) = st.
Proof. unfold stream. handler_cases; intros; try discriminate; now split. Qed.
End UploadWindow.

(** C5 (as amended).  For a request that reaches the upload check at time
    [now]: the check keeps exactly the stored timestamps [t] with
    [now - t < UPLOAD_WINDOW], so it discards every timestamp at or older than
    [now - UPLOAD_WINDOW] and none of those is counted; the upload is admitted
    if and only if fewer than [UPLOAD_LIMIT] timestamps remain; on admission
    [now] is appended to the pruned sequence and stored (whether or not the
    file is then saved), on denial the answer is a 429, nothing is recorded
    and no map changes. *)
Theorem upload_check_prunes_then_admits (cfg : config) (uid : Z)
    (rq : stream_request) (now : Q) (st : limiter_state) :
  reaches_upload_check cfg uid rq = true ->
  let stored := default [] (upload_history st !! uid) in
  let pruned := prune cfg now stored in
  let res := stream cfg (Some uid) rq now st in
  (forall t, In t pruned <-> In t stored /\ (now - t < inject_Z (UPLOAD_WINDOW cfg))%Q)
  /\ (forall t, (t <= now - inject_Z (UPLOAD_WINDOW cfg))%Q -> ~ In t pruned)
  /\ (is_429 (hr_response res) = false <-> Z.of_nat (length pruned) < UPLOAD_LIMIT cfg)
  /\ (Z.of_nat (length pruned) < UPLOAD_LIMIT cfg ->
        upload_history (hr_state res)
        = <[uid := (pruned ++ [now])%list]> (upload_history st)
        /\ upload_history (hr_state res) !! uid = Some (pruned ++ [now])%list
        /\ forall file,
             image rq = Some file ->
             hr_response res
             = if save_returns file
               then Redirect "stream" (Some (url_username rq))
               else InternalServerError)
  /\ (UPLOAD_LIMIT cfg <= Z.of_nat (length pruned) ->
        hr_response res = Json (TooManyUploads (UPLOAD_LIMIT cfg)) 429
        /\ hr_effects res = []
        /\ hr_state res = st).
Proof.
  intros Hreach stored pruned res.
  destruct (reaches_upload_check_file cfg uid rq Hreach) as [file Hfile].
  pose proof (stream_upload cfg uid rq file now st Hfile Hreach) as Hres.
  fold stored pruned res in Hres. simpl in Hres.
  clearbody res. subst res.
  split; [|split; [|split; [|split]]].
  - intros t. apply prune_In.
  - intros t Hold Hin. apply prune_In in Hin as [_ Hin]. lra.
  - destruct (Z.leb_spec (UPLOAD_LIMIT cfg) (Z.of_nat (length pruned))); simpl.
    + split; intros; [discriminate|lia].
    + split; intros; [assumption|].
      destruct (save_returns file); reflexivity.
  - intros Hlt.
    destruct (Z.leb_spec (UPLOAD_LIMIT cfg) (Z.of_nat (length pruned))); [lia|].
    repeat split.
    + destruct (save_returns file); reflexivity.
    + destruct (save_returns file); simpl; apply lookup_insert_eq.
    + intros file' Hfile'. rewrite Hfile in Hfile'. injection Hfile' as <-.
      destruct (save_returns file); reflexivity.
  - intros Hge.
    destruct (Z.leb_spec (UPLOAD_LIMIT cfg) (Z.of_nat (length pruned))); [|lia].
    repeat split.
Qed.

(** The spec's scenario: after uploads at seconds 0, 10, 20, 30 and 40, the
    upload at second 45 is answered 429 and changes nothing. *)
Lemma upload_check_prunes_then_admits_witness :
  let st := run Config (map upload_at [0; 10; 20; 30; 40]) in
  let res := stream Config (Some 2) upload_by_user_2 (inject_Z 1700000045) st in
  reaches_upload_check Config 2 upload_by_user_2 = true
  /\ hr_response res = Json (TooManyUploads 5) 429
  /\ hr_effects res = []
  /\ hr_state res = st.
Proof.
  intros st res. split; [reflexivity|].
  destruct (upload_check_prunes_then_admits Config 2 upload_by_user_2
              (inject_Z 1700000045) st eq_refl) as (_ & _ & _ & _ & Hdeny).
  apply Hdeny. vm_compute. congruence.
Defined.

(** C5, as first stated, fails at the edge of the window.  After uploads at
    seconds 0, 10, 20, 30 and 40, at second 60 the upload of second 0 is not
    older than [now - UPLOAD_WINDOW]: discarding only older timestamps leaves
    five, which is not fewer than [UPLOAD_LIMIT], yet the upload is admitted,
    because the code has discarded the timestamp of second 0 as well. *)
Lemma upload_at_window_edge_is_admitted :
  let st := run Config (map upload_at [0; 10; 20; 30; 40]) in
  let now := inject_Z (1700000000 + 60) in
  let stored := default [] (upload_history st !! 2) in
  let res := stream Config (Some 2) upload_by_user_2 now st in
  stored = map (fun t => inject_Z (1700000000 + t)) [0; 10; 20; 30; 40]
  /\ ~ (inject_Z 1700000000 < now - inject_Z (UPLOAD_WINDOW Config))%Q
  /\ prune_older Config now stored = stored
  /\ ~ Z.of_nat (length (prune_older Config now stored)) < UPLOAD_LIMIT Config
  /\ hr_response res = Redirect "stream" (Some "u2")
  /\ upload_history (hr_state res) !! 2
     = Some (map (fun t => inject_Z (1700000000 + t)) [10; 20; 30; 40; 60])
  /\ hr_response (handle_request Config (ev_request (upload_at 60))
                    (ev_now_ms (upload_at 60)) (ev_now (upload_at 60)) st)
     = Redirect "stream" (Some "u2").
Proof.
  repeat split; try (vm_compute; congruence).
Qed.

(** C6.  A denied cooldown check leaves [last_post_times] (indeed all three
    maps) as it was, and so does a denied upload check for [upload_history];
    whenever the hook changes [last_post_times] it has admitted the request
    and written its timestamp, and whenever [stream] changes [upload_history]
    it has admitted the upload and appended its timestamp. *)
Theorem denied_checks_mutate_nothing (cfg : config) (rq : request)
    (srq : stream_request) (session : option Z) (now_ms now : Q)
    (st : limiter_state) :
  (forall denied times,
      rate_limit_post_requests cfg rq now_ms (last_post_times st) = (Some denied, times) ->
      times = last_post_times st
      /\ hr_state (handle_request cfg rq now_ms now st) = st)
  /\ (is_429 (hr_response (stream cfg session srq now st)) = true ->
        hr_state (stream cfg session srq now st) = st)
  /\ (snd (rate_limit_post_requests cfg rq now_ms (last_post_times st))
         <> last_post_times st ->
        rate_limit_post_requests cfg rq now_ms (last_post_times st)
          = (None, <[request_identity rq := now_ms]> (last_post_times st)))
  /\ (upload_history (hr_state (stream cfg session srq now st)) <> upload_history st ->
        exists uid,
          session = Some uid
          /\ is_429 (hr_response (stream cfg session srq now st)) = false
          /\ upload_history (hr_state (stream cfg session srq now st))
             = <[uid := (prune cfg now (default [] (upload_history st !! uid))
                           ++ [now])%list]> (upload_history st)).
Proof.
  split; [|split; [|split]].
  - intros denied times Hrun.
    destruct (rate_limit_cases cfg rq now_ms (last_post_times st))
      as [[w Hw]|[Hw|Hw]]; rewrite Hw in Hrun; try discriminate.
    injection Hrun as <- <-. split; [reflexivity|].
    unfold handle_request. rewrite Hw. simpl. apply set_last_post_times_id.
  - destruct (hr_response (stream cfg session srq now st)) eqn:Hr; try discriminate.
    intros _. eapply stream_denied. exact Hr.
  - intros Hchg.
    destruct (rate_limit_cases cfg rq now_ms (last_post_times st))
      as [[w Hw]|[Hw|Hw]]; rewrite Hw in Hchg |- *; simpl in Hchg;
      try contradiction. reflexivity.
  - unfold stream. handler_cases; intros Hchg; try contradiction.
    all: eexists; repeat split.
Qed.

Lemma denied_checks_mutate_nothing_witness :
  let st := run Config (map upload_at [0; 10; 20; 30; 40]) in
  hr_state (stream Config (Some 2) upload_by_user_2 (inject_Z 1700000045) st) = st.
Proof.
  intros st.
  apply (denied_checks_mutate_nothing Config post_upload_by_user_2 upload_by_user_2
           (Some 2) (inject_Z 1700000045000) (inject_Z 1700000045) st).
  reflexivity.
Defined.

(** [stream] answers "Too many uploads" only from the upload check. *)
Lemma stream_too_many_uploads (cfg : config) (session : option Z)
    (rq : stream_request) (now : Q) (st : limiter_state) (limit status : Z) :
  hr_response (stream cfg session rq now st) = Json (TooManyUploads limit) status ->
  exists uid,
    session = Some uid
    /\ reaches_upload_check cfg uid rq = true
    /\ UPLOAD_LIMIT cfg
       <= Z.of_nat (length (prune cfg now (default [] (upload_history st !! uid)))).
Proof.
  unfold stream, reaches_upload_check.
  handler_cases; intros; try discriminate.
  eexists. split; [reflexivity|].
  repeat match goal with
         | H : negb _ = false |- _ => apply negb_false_iff in H
         | H : (_ <=? _) = true |- _ => apply Z.leb_le in H
         end.
  split; [|assumption].
  match goal with H : (_ =? _) = true |- _ => now rewrite H end.
Qed.

(** C10.  When the upload check of [stream] denies (429, "Too many uploads")
    the view has performed no effect: no file is saved, no post row is
    created, nothing is flashed, and the three maps are as before.  The same
    holds for the request as a whole, whose only trace is the timestamp the
    cooldown hook recorded before the view ran.  An admitted upload, by
    contrast, calls [save] and, when that returns, creates the post. *)
Theorem upload_denial_has_no_effect (cfg : config) (rq : request)
    (srq : stream_request) (now_ms now : Q) (st : limiter_state) :
  target rq = RouteStream srq ->
  (forall limit status,
      hr_response (stream cfg (session rq) srq now st) = Json (TooManyUploads limit) status ->
      hr_effects (stream cfg (session rq) srq now st) = []
      /\ hr_state (stream cfg (session rq) srq now st) = st)
  /\ (forall limit status,
        hr_response (handle_request cfg rq now_ms now st)
          = Json (TooManyUploads limit) status ->
        hr_effects (handle_request cfg rq now_ms now st) = []
        /\ (forall folder name,
              ~ In (SaveFile folder name)
                  (hr_effects (handle_request cfg rq now_ms now st)))
        /\ (forall u c name,
              ~ In (CreatePost u c name)
                  (hr_effects (handle_request cfg rq now_ms now st)))
        /\ upload_history (hr_state (handle_request cfg rq now_ms now st))
           = upload_history st
        /\ login_attempts (hr_state (handle_request cfg rq now_ms now st))
           = login_attempts st)
  /\ (forall uid file,
        session rq = Some uid ->
        image srq = Some file ->
        reaches_upload_check cfg uid srq = true ->
        is_429 (hr_response (stream cfg (session rq) srq now st)) = false ->
        In (SaveFile (UPLOADS_FOLDER_PATH cfg) (filename file))
           (hr_effects (stream cfg (session rq) srq now st))
        /\ (save_returns file = true ->
            In (CreatePost uid (content srq) (filename file))
               (hr_effects (stream cfg (session rq) srq now st)))).
Proof.
  intros Ht. split; [|split].
  - intros limit status Hr. eapply stream_denied. exact Hr.
  - intros limit status. unfold handle_request.
    destruct (rate_limit_post_requests cfg rq now_ms (last_post_times st))
      as [[denied|] times] eqn:Hhook; simpl.
    + intros ->. repeat split; auto.
    + rewrite Ht. intros Hr.
      destruct (stream_denied cfg _ _ _ _ _ _ Hr) as [He Hs].
      rewrite He, Hs. repeat split; auto.
  - intros uid file Hs Hfile Hreach.
    rewrite Hs, (stream_upload cfg uid srq file now st Hfile Hreach).
    simpl. destruct (UPLOAD_LIMIT cfg <=? _); simpl; [discriminate|].
    intros _. destruct (save_returns file); simpl.
    + split; [now left|]. intros _. right. now left.
    + split; [now left|discriminate].
Qed.

(** The spec's scenario: the upload at second 45 is refused and leaves no
    trace but the hook's timestamp. *)
Lemma upload_denial_has_no_effect_witness :
  let st := run Config (map upload_at [0; 10; 20; 30; 40]) in
  let res := handle_request Config post_upload_by_user_2
               (inject_Z 1700000045000) (inject_Z 1700000045) st in
  target post_upload_by_user_2 = RouteStream upload_by_user_2
  /\ hr_response res = Json (TooManyUploads 5) 429
  /\ hr_effects res = [].
Proof.
  intros st res.
  assert (Hr : hr_response res = Json (TooManyUploads 5) 429) by (vm_compute; reflexivity).
  split; [reflexivity|]. split; [exact Hr|].
  destruct (upload_denial_has_no_effect Config post_upload_by_user_2 upload_by_user_2
              (inject_Z 1700000045000) (inject_Z 1700000045) st eq_refl)
    as (_ & Hreq & _).
  destruct (Hreq 5 429 Hr) as [He _]. exact He.
Defined.

(** ** Reachable states *)

(** A property of the limiter state that holds at process start and that every
    request preserves holds after every sequence of requests. *)
Lemma run_invariant (cfg : config) (P : limiter_state -> Prop) :
  P initial_state ->
  (forall rq now_ms now st, P st -> P (hr_state (handle_request cfg rq now_ms now st))) ->
  forall evs, P (run cfg evs).
Proof.
  intros Hinit Hstep evs. unfold run.
  generalize dependent initial_state.
  induction evs as [|ev evs IH]; intros st Hst; simpl; [exact Hst|].
  apply IH, Hstep, Hst.
Qed.

Section UploadInvariant.
Variable cfg : config.

Lemma stream_bounded (session : option Z) (rq : stream_request) (now : Q)
    (st : limiter_state) :
  bounded_history cfg st ->
  bounded_history cfg (hr_state (stream cfg session rq now st)).
Proof.
  intros Hst. unfold stream. handler_cases; trivial.
  all: intros uid l; simpl.
  all: match goal with H : (_ <=? _) = false |- _ =>
         apply Z.leb_gt in H; rename H into Hlt end.
  all: rewrite lookup_insert.
  all: match goal with |- context [decide (?a = ?b)] => destruct (decide (a = b)) end.
  all: try apply Hst.
  all: intros [= <-]; rewrite length_app; simpl; lia.
Qed.

Lemma handle_request_bounded (rq : request) (now_ms now : Q) (st : limiter_state) :
  bounded_history cfg st ->
  bounded_history cfg (hr_state (handle_request cfg rq now_ms now st)).
Proof.
  intros Hst. unfold handle_request.
  destruct (rate_limit_post_requests cfg rq now_ms (last_post_times st))
    as [[denied|] times]; simpl; [exact Hst|].
  destruct (target rq) as [irq|srq|other]; simpl.
  - unfold bounded_history.
    destruct (index_frame cfg (session rq) irq now (set_last_post_times times st))
      as [_ ->]. exact Hst.
  - apply stream_bounded. exact Hst.
  - exact Hst.
Qed.
End UploadInvariant.

(** C7.  With a non-negative [UPLOAD_LIMIT], after any sequence of requests
    since process start, every identity's stored sequence has at most
    [UPLOAD_LIMIT] timestamps; so at most [UPLOAD_LIMIT] of them lie in any
    trailing interval [(x - UPLOAD_WINDOW, x]], and at most [UPLOAD_LIMIT]
    remain after the pruning of a check at any time. *)
Theorem upload_window_bounded (cfg : config) (evs : list event) (uid : Z) :
  0 <= UPLOAD_LIMIT cfg ->
  let stored := default [] (upload_history (run cfg evs) !! uid) in
  Z.of_nat (length stored) <= UPLOAD_LIMIT cfg
  /\ (forall x : Q, Z.of_nat (count_trailing cfg x stored) <= UPLOAD_LIMIT cfg)
  /\ (forall now : Q, Z.of_nat (length (prune cfg now stored)) <= UPLOAD_LIMIT cfg).
Proof.
  intros Hlimit stored.
  assert (Hlen : Z.of_nat (length stored) <= UPLOAD_LIMIT cfg).
  { subst stored.
    destruct (upload_history (run cfg evs) !! uid) as [l|] eqn:Hl; simpl; [|lia].
    revert uid l Hl. change (bounded_history cfg (run cfg evs)).
    apply run_invariant.
    - intros uid l. unfold initial_state. simpl. now rewrite lookup_empty.
    - intros. now apply handle_request_bounded. }
  split; [exact Hlen|]. split.
  - intros x. pose proof (count_trailing_le_prune cfg x stored).
    pose proof (prune_length cfg x stored). lia.
  - intros now. pose proof (prune_length cfg now stored). lia.
Qed.

(** The spec's scenario: uploads at seconds 0, 10, 20, 30, 40, 45 and 61 leave
    five timestamps for user 2 (the one at 45 was refused, the one at 0
    pruned). *)
Lemma upload_window_bounded_witness :
  let stored :=
    default [] (upload_history (run Config (map upload_at [0; 10; 20; 30; 40; 45; 61])) !! 2) in
  0 <= UPLOAD_LIMIT Config
  /\ stored = map (fun t => inject_Z (1700000000 + t)) [10; 20; 30; 40; 61]
  /\ Z.of_nat (length stored) <= UPLOAD_LIMIT Config.
Proof.
  assert (Hlimit : 0 <= UPLOAD_LIMIT Config) by (vm_compute; congruence).
  intros stored. split; [exact Hlimit|]. split; [vm_compute; reflexivity|].
  destruct (upload_window_bounded Config
              (map upload_at [0; 10; 20; 30; 40; 45; 61]) 2 Hlimit) as [Hlen _].
  exact Hlen.
Defined.

(** ** The login-attempt tracker *)

Section LoginTracker.
Variable cfg : config.

(** What [index] does with a login submission that gets past line 90. *)
Lemma index_login (rq : index_request) (username : string) (now : Q)
    (st : limiter_state) :
  login_attempt_by rq username = true ->
  index cfg None rq now st =
    if MAX_LOGIN_ATTEMPTS cfg <=? attempts_of (login_attempts st) username then
      match login_attempts st !! username with
      | None => finish InternalServerError [] st
      | Some r =>
          if Qltb (last_attempt r) (now + inject_Z (LOGIN_COOLDOWN cfg)) then
            finish (RenderTemplate "index.html") [too_many_attempts] st
          else
            finish (RenderTemplate "index.html") []
              (set_login_attempts
                 (<[username := {| attempts := 0; last_attempt := 0 |}]>
                    (login_attempts st)) st)
      end
    else if negb (password_matches rq) then
      finish (RenderTemplate "index.html") [wrong_credentials] st
    else
      finish (Redirect "stream" (Some username)) [SetSessionUserId (user_id rq)] st.
Proof.
  unfold login_attempt_by, index. intros H.
  apply andb_prop in H as [H Hpw]. apply andb_prop in H as [H Hpass].
  apply andb_prop in H as [H Hne]. apply andb_prop in H as [Hsub Hname].
  apply bool_decide_eq_true in Hname, Hpw. destruct Hpw as [pw Hpw].
  simpl. rewrite Hsub, Hname, Hpass, Hpw. simpl. rewrite Hne. reflexivity.
Qed.

(** A failed password check writes nothing. *)
Lemma failed_check_not_recorded (rq : index_request) (username : string)
    (now : Q) (st : limiter_state) :
  login_attempt_by rq username = true ->
  attempts_of (login_attempts st) username < MAX_LOGIN_ATTEMPTS cfg ->
  password_matches rq = false ->
  index cfg None rq now st
    = finish (RenderTemplate "index.html") [wrong_credentials] st.
Proof.
  intros Hlogin Hlt Hpw. rewrite (index_login _ _ _ _ Hlogin).
  destruct (Z.leb_spec (MAX_LOGIN_ATTEMPTS cfg) (attempts_of (login_attempts st) username));
    [lia|]. now rewrite Hpw.
Qed.

(** The [else] branch of line 95: reached only with a [last_attempt] at
    least [LOGIN_COOLDOWN] ahead of the clock; it clears the record and
    renders the page without looking at the submitted password. *)
Lemma lockout_reset_branch (rq : index_request) (username : string) (now : Q)
    (st : limiter_state) (r : attempt_record) :
  login_attempt_by rq username = true ->
  login_attempts st !! username = Some r ->
  MAX_LOGIN_ATTEMPTS cfg <= attempts r ->
  (now + inject_Z (LOGIN_COOLDOWN cfg) <= last_attempt r)%Q ->
  index cfg None rq now st
    = finish (RenderTemplate "index.html") []
        (set_login_attempts
           (<[username := {| attempts := 0; last_attempt := 0 |}]>
              (login_attempts st)) st).
Proof.
  intros Hlogin Hr Hmax Hlate. rewrite (index_login _ _ _ _ Hlogin).
  unfold attempts_of. rewrite Hr.
  destruct (Z.leb_spec (MAX_LOGIN_ATTEMPTS cfg) (attempts r)); [|lia].
  apply Qltb_ge in Hlate. now rewrite Hlate.
Qed.

(** The only record [index] ever stores has [attempts = 0]. *)
Lemma index_writes_zero (session : option Z) (rq : index_request) (now : Q)
    (st : limiter_state) (u : string) (r : attempt_record) :
  login_attempts (hr_state (index cfg session rq now st)) !! u = Some r ->
  login_attempts st !! u = Some r \/ attempts r = 0.
Proof.
  unfold index. handler_cases; auto.
  rewrite lookup_insert.
  match goal with |- context [decide (?a = ?b)] => destruct (decide (a = b)) end; auto.
  intros [= <-]. now right.
Qed.

(** With an empty [login_attempts], [index] leaves it empty and flashes no
    lockout warning. *)
Lemma index_keeps_empty (session : option Z) (rq : index_request) (now : Q)
    (st : limiter_state) :
  login_attempts st = ∅ ->
  login_attempts (hr_state (index cfg session rq now st)) = ∅
  /\ ~ In too_many_attempts (hr_effects (index cfg session rq now st)).
Proof.
  intros Hempty. unfold index. handler_cases;
    try match goal with
        | H : login_attempts _ !! _ = Some _ |- _ =>
            rewrite Hempty, lookup_empty in H; discriminate
        end.
  all: split; [exact Hempty|].
  all: unfold too_many_attempts, wrong_credentials, fill_out_all_fields;
    simpl; intuition discriminate.
Qed.

Lemma handle_request_writes_zero (rq : request) (now_ms now : Q)
    (st : limiter_state) (u : string) (r : attempt_record) :
  login_attempts (hr_state (handle_request cfg rq now_ms now st)) !! u = Some r ->
  login_attempts st !! u = Some r \/ attempts r = 0.
Proof.
  unfold handle_request.
  destruct (rate_limit_post_requests cfg rq now_ms (last_post_times st))
    as [[denied|] times]; simpl; auto.
  destruct (target rq) as [irq|srq|other]; simpl; auto.
  - intros H. apply index_writes_zero in H. exact H.
  - destruct (stream_frame cfg (session rq) srq now (set_last_post_times times st))
      as [_ ->]. auto.
Qed.

Lemma handle_request_keeps_empty (rq : request) (now_ms now : Q) (st : limiter_state) :
  login_attempts st = ∅ ->
  login_attempts (hr_state (handle_request cfg rq now_ms now st)) = ∅
  /\ ~ In too_many_attempts (hr_effects (handle_request cfg rq now_ms now st)).
Proof.
  intros Hempty. unfold handle_request.
  destruct (rate_limit_post_requests cfg rq now_ms (last_post_times st))
    as [[denied|] times]; simpl; [split; [exact Hempty|tauto]|].
  destruct (target rq) as [irq|srq|other]; simpl.
  - apply index_keeps_empty. exact Hempty.
  - destruct (stream_frame cfg (session rq) srq now (set_last_post_times times st))
      as [_ ->]. split; [exact Hempty|].
    unfold stream, too_many_attempts. handler_cases; simpl; intuition congruence.
  - split; [exact Hempty|tauto].
Qed.
End LoginTracker.

(** C9.  The only record any request stores in [login_attempts] has
    [attempts = 0]; after any sequence of requests since process start every
    record of the map has [attempts = 0] (the map is in fact still empty);
    and with [MAX_LOGIN_ATTEMPTS >= 1] the test of line 92 is false for every
    username, so no request is answered with the too-many-attempts
    warning. *)
Theorem login_attempts_never_lock (cfg : config) (evs : list event) :
  (forall rq now_ms now st u r,
      login_attempts (hr_state (handle_request cfg rq now_ms now st)) !! u = Some r ->
      login_attempts st !! u = Some r \/ attempts r = 0)
  /\ (forall u r, login_attempts (run cfg evs) !! u = Some r -> attempts r = 0)
  /\ (1 <= MAX_LOGIN_ATTEMPTS cfg ->
        (forall u, attempts_of (login_attempts (run cfg evs)) u < MAX_LOGIN_ATTEMPTS cfg)
        /\ (forall u, lock_state_of cfg (login_attempts (run cfg evs)) u = CLEAR)
        /\ (forall rq now_ms now,
              ~ In too_many_attempts
                  (hr_effects (handle_request cfg rq now_ms now (run cfg evs))))).
Proof.
  assert (Hempty : login_attempts (run cfg evs) = ∅).
  { apply (run_invariant cfg (fun st => login_attempts st = ∅)); [reflexivity|].
    intros rq now_ms now st Hst. now apply handle_request_keeps_empty. }
  split; [|split].
  - intros rq now_ms now st u r. apply handle_request_writes_zero.
  - intros u r. rewrite Hempty, lookup_empty. discriminate.
  - intros Hmax.
    assert (Hzero : forall u, attempts_of (login_attempts (run cfg evs)) u = 0).
    { intros u. unfold attempts_of. now rewrite Hempty, lookup_empty. }
    split; [|split].
    + intros u. rewrite Hzero. lia.
    + intros u. unfold lock_state_of. rewrite Hzero.
      destruct (Z.leb_spec (MAX_LOGIN_ATTEMPTS cfg) 0); [lia|reflexivity].
    + intros rq now_ms now. now apply handle_request_keeps_empty.
Qed.

(** After five failed logins of Bob the test of line 92 is still false. *)
Lemma login_attempts_never_lock_witness :
  1 <= MAX_LOGIN_ATTEMPTS Config
  /\ attempts_of (login_attempts (run Config (map bob_fails_at [0; 1; 2; 3; 4]))) "bob"
     < MAX_LOGIN_ATTEMPTS Config.
Proof.
  assert (Hmax : 1 <= MAX_LOGIN_ATTEMPTS Config) by (vm_compute; congruence).
  split; [exact Hmax|].
  destruct (login_attempts_never_lock Config (map bob_fails_at [0; 1; 2; 3; 4]))
    as (_ & _ & Hclear).
  destruct (Hclear Hmax) as [Hlt _]. exact (Hlt "bob").
Defined.

(** C3.  For a login submission that reaches the lockout test, with a record
    of [attempts >= MAX_LOGIN_ATTEMPTS], [last_attempt <= now] and
    [LOGIN_COOLDOWN > 0]: the comparison
    [last_attempt < now + LOGIN_COOLDOWN] is true, the request is answered
    with the too-many-attempts warning, the record is not reset (no map
    changes), and the same happens at every later time. *)
Theorem lockout_never_expires (cfg : config) (rq : index_request)
    (username : string) (now : Q) (st : limiter_state) (r : attempt_record) :
  login_attempt_by rq username = true ->
  login_attempts st !! username = Some r ->
  MAX_LOGIN_ATTEMPTS cfg <= attempts r ->
  (last_attempt r <= now)%Q ->
  0 < LOGIN_COOLDOWN cfg ->
  Qltb (last_attempt r) (now + inject_Z (LOGIN_COOLDOWN cfg)) = true
  /\ index cfg None rq now st
     = finish (RenderTemplate "index.html") [too_many_attempts] st
  /\ (forall later : Q,
        (now <= later)%Q ->
        index cfg None rq later st
        = finish (RenderTemplate "index.html") [too_many_attempts] st).
Proof.
  intros Hlogin Hr Hmax Hpast Hcool.
  assert (Hcd : (0 < inject_Z (LOGIN_COOLDOWN cfg))%Q).
  { change 0%Q with (inject_Z 0). now rewrite <- Zlt_Qlt. }
  assert (Hall : forall t : Q,
             (now <= t)%Q ->
             Qltb (last_attempt r) (t + inject_Z (LOGIN_COOLDOWN cfg)) = true
             /\ index cfg None rq t st
                = finish (RenderTemplate "index.html") [too_many_attempts] st).
  { intros t Ht.
    assert (Hcmp : Qltb (last_attempt r) (t + inject_Z (LOGIN_COOLDOWN cfg)) = true)
      by (apply Qltb_lt; lra).
    split; [exact Hcmp|].
    rewrite (index_login cfg _ _ _ _ Hlogin).
    unfold attempts_of. rewrite Hr.
    destruct (Z.leb_spec (MAX_LOGIN_ATTEMPTS cfg) (attempts r)); [|lia].
    now rewrite Hcmp. }
  destruct (Hall now) as [Hcmp Hrun]; [lra|].
  split; [exact Hcmp|]. split; [exact Hrun|].
  intros later Hlater. now apply Hall.
Qed.

(** Bob, locked with five attempts recorded at second 4, is still refused a
    day later although he submits his password. *)
Lemma lockout_never_expires_witness :
  index Config None bob_right_password (inject_Z (1700000000 + 86404)) (bob_recorded 5 4)
  = finish (RenderTemplate "index.html") [too_many_attempts] (bob_recorded 5 4).
Proof.
  apply (lockout_never_expires Config bob_right_password "bob"
           (inject_Z (1700000000 + 86404)) (bob_recorded 5 4)
           {| attempts := 5; last_attempt := inject_Z (1700000000 + 4) |});
    vm_compute; congruence.
Defined.

(** C1 (the code at the failing input).  Bob fails the password check five
    times in a row, one second apart.  Each failure is answered with the
    wrong-credentials warning and recorded nowhere: [login_attempts] is still
    empty, Bob's attempts count reads 0 and his state is [CLEAR], not
    [LOCKED]; a sixth failure gets the same warning and a sixth submission
    with the right password logs him in. *)
Theorem failed_logins_are_not_counted :
  let st := run Config (map bob_fails_at [0; 1; 2; 3; 4]) in
  let sixth := bob_fails_at 5 in
  Z.of_nat (length (map bob_fails_at [0; 1; 2; 3; 4])) = MAX_LOGIN_ATTEMPTS Config
  /\ hr_effects (handle_request Config (ev_request (bob_fails_at 0))
                   (ev_now_ms (bob_fails_at 0)) (ev_now (bob_fails_at 0)) initial_state)
     = [wrong_credentials]
  /\ login_attempts st = ∅
  /\ attempts_of (login_attempts st) "bob" = 0
  /\ lock_state_of Config (login_attempts st) "bob" = CLEAR
  /\ hr_effects (handle_request Config (ev_request sixth) (ev_now_ms sixth) (ev_now sixth) st)
     = [wrong_credentials]
  /\ index Config None bob_right_password (inject_Z (1700000000 + 5)) st
     = finish (Redirect "stream" (Some "bob")) [SetSessionUserId (Some 7)] st.
Proof.
  repeat split; vm_compute; reflexivity.
Qed.





(** * Further properties of routes.py *)

(** ** Who can make a view act *)

Ltac view_cases :=
  repeat match goal with
         | |- context [match ?x with _ => _ end] => destruct x eqn:?; simpl
         | H : _ \/ _ |- _ => destruct H
         | H : False |- _ => destruct H
         | H : (_ =? _) = true |- _ => apply Z.eqb_eq in H
         | H : (_ =? _) = false |- _ => apply Z.eqb_neq in H
         | H : negb _ = true |- _ => apply negb_true_iff in H
         | H : negb _ = false |- _ => apply negb_false_iff in H
         | H : bool_decide _ = true |- _ => apply bool_decide_eq_true in H
         | H : bool_decide _ = false |- _ => apply bool_decide_eq_false in H
         | H : _ && _ = true |- _ => apply andb_prop in H; destruct H
         end.

(** X1.  [friends] calls [add_friend(u, f)] exactly when the session's user
    [u] submits the form on their own page, the named user exists with id
    [f], is not [u], and is not among [u]'s friends already. *)
Theorem friends_adds_only_new_friends (session : option Z) (rq : friends_request)
    (u f : Z) :
  In (AddFriend u f) (vr_effects (friends session rq))
  <-> session = Some u
      /\ fr_user rq = Some u
      /\ fr_submitted rq = true
      /\ fr_friend rq = Some f
      /\ f <> u
      /\ f ∉ fr_friends rq.
Proof.
  split.
  - unfold friends. view_cases; intros Hin; simpl in Hin; view_cases;
      try discriminate.
    all: match goal with H : AddFriend _ _ = AddFriend _ _ |- _ =>
           injection H as <- <- end.
    all: subst; repeat split; congruence.
  - intros (-> & Hu & Hs & Hf & Hne & Hnew). unfold friends.
    rewrite Hu, Hs, Hf, Z.eqb_refl. simpl.
    destruct (Z.eqb_spec f u); [contradiction|].
    rewrite bool_decide_eq_false_2 by assumption.
    destruct (fr_add_friend_ok rq); simpl; now left.
Qed.

(** X2.  [profile] calls [update_profile] exactly when the session's user
    submits the form on their own profile, and then for the URL's username
    with the submitted fields; on anybody else's profile a submission changes
    nothing. *)
Theorem profile_updates_only_own (session : option Z) (rq : profile_request)
    (name : string) (fields : list string) :
  In (UpdateProfile name fields) (vr_effects (profile session rq))
  <-> exists uid,
        session = Some uid
        /\ pf_user rq = Some uid
        /\ pf_submitted rq = true
        /\ name = pf_username rq
        /\ fields = pf_fields rq.
Proof.
  split.
  - unfold profile. view_cases; intros Hin; simpl in Hin; view_cases;
      try discriminate.
    all: match goal with H : UpdateProfile _ _ = UpdateProfile _ _ |- _ =>
           injection H as <- <- end.
    all: eexists; repeat split; congruence.
  - intros (uid & -> & Hu & Hs & -> & ->). unfold profile.
    rewrite Hu, Hs, Z.eqb_refl. simpl.
    destruct (pf_update_ok rq); simpl; now left.
Qed.

(** X3.  [comments] calls [create_comment(p, u, c)] exactly when the session's
    user [u] submits the form on their own page; the comment is attributed to
    [u] and goes to the post of the URL, whatever that post is. *)
Theorem comments_are_attributed_to_session_user (session : option Z)
    (rq : comments_request) (p u : Z) (c : string) :
  In (CreateComment p u c) (vr_effects (comments session rq))
  <-> session = Some u
      /\ cm_user rq = Some u
      /\ cm_submitted rq = true
      /\ p = cm_post_id rq
      /\ c = cm_comment rq.
Proof.
  split.
  - unfold comments. view_cases; intros Hin; simpl in Hin; view_cases;
      try discriminate.
    match goal with H : CreateComment _ _ _ = CreateComment _ _ _ |- _ =>
      injection H as <- <- <- end.
    subst. repeat split; congruence.
  - intros (-> & Hu & Hs & -> & ->). unfold comments.
    rewrite Hu, Hs, Z.eqb_refl. simpl. now left.
Qed.

(** ** Logging in and registering *)

(** X4.  [index] stores a user id in the session exactly when nobody is
    logged in, the login form is submitted with both fields filled, the
    database knows the username, the lockout test of line 92 is false and
    [check_password_hash] accepted the password; the id stored is the one
    [get_user_id] returned.  Registration never logs anybody in. *)
Theorem session_set_only_on_password_match (cfg : config) (session : option Z)
    (rq : index_request) (now : Q) (st : limiter_state) (u : option Z) :
  In (SetSessionUserId u) (hr_effects (index cfg session rq now st))
  <-> session = None
      /\ login_submitted rq = true
      /\ truthy (login_username rq) = true
      /\ truthy (login_password rq) = true
      /\ is_Some (user_password rq)
      /\ attempts_of (login_attempts st) (default "" (login_username rq))
         < MAX_LOGIN_ATTEMPTS cfg
      /\ password_matches rq = true
      /\ u = user_id rq.
Proof.
  split.
  - destruct session as [uid|];
      [unfold index; simpl; destruct (ix_current_user rq); simpl; contradiction|].
    unfold index, is_logged_in, too_many_attempts, wrong_credentials,
      fill_out_all_fields.
    view_cases; intros Hin; simpl in Hin; view_cases; try discriminate.
    match goal with H : SetSessionUserId _ = SetSessionUserId _ |- _ =>
      injection H as <- end.
    match goal with H : _ || _ = false |- _ =>
      apply orb_false_elim in H; destruct H end.
    view_cases.
    match goal with H : (_ <=? _) = false |- _ => apply Z.leb_gt in H end.
    repeat split; eauto.
  - intros (-> & Hs & Hu & Hp & [pw Hpw] & Hlt & Hm & ->).
    unfold index. simpl. rewrite Hs, Hu, Hp, Hpw, Hm. simpl.
    destruct (Z.leb_spec (MAX_LOGIN_ATTEMPTS cfg)
                (attempts_of (login_attempts st) (default "" (login_username rq))));
      [lia|]. now left.
Qed.

(** X5.  A failed login tells nothing about the username: while the lockout
    test is false, a submission for a username the database does not know and
    one for a known username with a wrong password get the same response, the
    same flashed message and leave the same state. *)
Theorem login_failure_indistinguishable (cfg : config) (unknown known : index_request)
    (username : string) (now : Q) (st : limiter_state) :
  login_submitted unknown = true ->
  login_username unknown = Some username ->
  truthy (login_password unknown) = true ->
  user_password unknown = None ->
  login_attempt_by known username = true ->
  password_matches known = false ->
  attempts_of (login_attempts st) username < MAX_LOGIN_ATTEMPTS cfg ->
  index cfg None unknown now st = index cfg None known now st
  /\ index cfg None known now st
     = finish (RenderTemplate "index.html") [wrong_credentials] st.
Proof.
  intros Hs Hu Hp Hnone Hknown Hwrong Hlt.
  rewrite (failed_check_not_recorded cfg known username now st Hknown Hlt Hwrong).
  split; [|reflexivity].
  unfold login_attempt_by in Hknown. view_cases.
  unfold index. simpl. rewrite Hs, Hu, Hp, Hnone. simpl.
  match goal with H : (username =? "")%string = false |- _ => now rewrite H end.
Qed.

(** X6.  [index] calls [create_user] exactly when nobody is logged in, the
    login form is not submitted, the registration form is, and all four of
    its fields are filled; the call carries the submitted names and the hash
    of the password. *)
Theorem registration_needs_all_fields (cfg : config) (session : option Z)
    (rq : index_request) (now : Q) (st : limiter_state)
    (username first_name last_name hash : string) :
  In (CreateUser username first_name last_name hash)
     (hr_effects (index cfg session rq now st))
  <-> session = None
      /\ login_submitted rq = false
      /\ register_submitted rq = true
      /\ truthy (register_username rq) = true
      /\ truthy (register_password rq) = true
      /\ truthy (register_first_name rq) = true
      /\ truthy (register_last_name rq) = true
      /\ username = default "" (register_username rq)
      /\ first_name = default "" (register_first_name rq)
      /\ last_name = default "" (register_last_name rq)
      /\ hash = pw_hash rq.
Proof.
  split.
  - destruct session as [uid|];
      [unfold index; simpl; destruct (ix_current_user rq); simpl; contradiction|].
    unfold index, is_logged_in, too_many_attempts, wrong_credentials,
      fill_out_all_fields.
    view_cases; intros Hin; simpl in Hin; view_cases; try discriminate.
    all: match goal with H : CreateUser _ _ _ _ = CreateUser _ _ _ _ |- _ =>
           injection H as <- <- <- <- end.
    all: repeat match goal with H : _ || _ = false |- _ =>
           apply orb_false_elim in H; destruct H end.
    all: view_cases; repeat split; trivial.
  - intros (-> & Hl & Hr & Hu & Hp & Hf & Hn & -> & -> & -> & ->).
    unfold index. simpl. rewrite Hl, Hr, Hu, Hp, Hf, Hn. simpl.
    destruct (create_user_ok rq); simpl; now left.
Qed.

(** X7.  [index] fails with the [KeyError] of line 93 exactly when a login
    submission for a known username reaches the lockout test, the username
    has no record in [login_attempts] and [MAX_LOGIN_ATTEMPTS] is at most 0;
    with [MAX_LOGIN_ATTEMPTS >= 1] it never does. *)
Theorem index_key_error (cfg : config) (session : option Z) (rq : index_request)
    (now : Q) (st : limiter_state) :
  (hr_response (index cfg session rq now st) = InternalServerError
   <-> session = None
       /\ login_submitted rq = true
       /\ truthy (login_username rq) = true
       /\ truthy (login_password rq) = true
       /\ is_Some (user_password rq)
       /\ login_attempts st !! default "" (login_username rq) = None
       /\ MAX_LOGIN_ATTEMPTS cfg <= 0)
  /\ (1 <= MAX_LOGIN_ATTEMPTS cfg ->
      hr_response (index cfg session rq now st) <> InternalServerError).
Proof.
  assert (Hiff : hr_response (index cfg session rq now st) = InternalServerError
                 <-> session = None
                     /\ login_submitted rq = true
                     /\ truthy (login_username rq) = true
                     /\ truthy (login_password rq) = true
                     /\ is_Some (user_password rq)
                     /\ login_attempts st !! default "" (login_username rq) = None
                     /\ MAX_LOGIN_ATTEMPTS cfg <= 0).
  { split.
    - destruct session as [uid|];
        [unfold index; simpl; destruct (ix_current_user rq); simpl; discriminate|].
      unfold index, is_logged_in, attempts_of.
      view_cases; intros Hr; try discriminate.
      match goal with H : _ || _ = false |- _ =>
        apply orb_false_elim in H; destruct H end.
      view_cases.
      match goal with H : (_ <=? _) = true |- _ => apply Z.leb_le in H end.
      repeat split; eauto.
    - intros (-> & Hs & Hu & Hp & [pw Hpw] & Hnone & Hmax).
      unfold index, attempts_of. simpl. rewrite Hs, Hu, Hp, Hpw, Hnone. simpl.
      destruct (Z.leb_spec (MAX_LOGIN_ATTEMPTS cfg) 0); [reflexivity|lia]. }
  split; [exact Hiff|].
  intros Hmax Hr. apply Hiff in Hr. lia.
Qed.

(** X8.  When a login submission takes the reset branch of line 95 (a locked
    record whose [last_attempt] is at least [LOGIN_COOLDOWN] ahead of the
    clock), that request clears the record but does not look at the password:
    even the right password does not log in.  With
    [MAX_LOGIN_ATTEMPTS >= 1] the same submission, repeated at any time,
    then logs in. *)
Theorem reset_then_login (cfg : config) (rq : index_request) (username : string)
    (now later : Q) (st : limiter_state) (r : attempt_record) :
  login_attempt_by rq username = true ->
  password_matches rq = true ->
  login_attempts st !! username = Some r ->
  MAX_LOGIN_ATTEMPTS cfg <= attempts r ->
  (now + inject_Z (LOGIN_COOLDOWN cfg) <= last_attempt r)%Q ->
  1 <= MAX_LOGIN_ATTEMPTS cfg ->
  let first := index cfg None rq now st in
  hr_effects first = []
  /\ hr_response first = RenderTemplate "index.html"
  /\ login_attempts (hr_state first) !! username
     = Some {| attempts := 0; last_attempt := 0 |}
  /\ index cfg None rq later (hr_state first)
     = finish (Redirect "stream" (Some username)) [SetSessionUserId (user_id rq)]
         (hr_state first).
Proof.
  intros Hlogin Hpw Hr Hmax Hlate Hone first. subst first.
  rewrite (lockout_reset_branch cfg rq username now st r Hlogin Hr Hmax Hlate).
  simpl. repeat split.
  - apply lookup_insert_eq.
  - rewrite (index_login cfg rq username later _ Hlogin). simpl.
    unfold attempts_of. rewrite lookup_insert_eq. simpl.
    destruct (Z.leb_spec (MAX_LOGIN_ATTEMPTS cfg) 0); [lia|].
    now rewrite Hpw.
Qed.

(** ** Posting *)

(** The test of line 152 lets through an empty secured name and any name
    with an allowed extension. *)
Lemma extension_check_passes (cfg : config) (file : file_storage) :
  negb (filename file =? "")%string
  && negb (bool_decide (extension file ∈ ALLOWED_EXTENSIONS cfg)) = false
  <-> filename file = "" \/ extension file ∈ ALLOWED_EXTENSIONS cfg.
Proof.
  rewrite andb_false_iff, !negb_false_iff, String.eqb_eq, bool_decide_eq_true.
  reflexivity.
Qed.

(** X9.  [stream] calls [create_post(u, c, f)] exactly when the session's
    user [u] submits the form on their own stream, the image field holds a
    [FileStorage] whose secured name is empty or has an allowed extension,
    and, if that file is truthy, the upload check admits it and [save]
    returns; the post is attributed to [u]. *)
Theorem stream_posts_only_for_owner (cfg : config) (session : option Z)
    (rq : stream_request) (now : Q) (st : limiter_state) (u : Z) (c f : string) :
  In (CreatePost u c f) (hr_effects (stream cfg session rq now st))
  <-> exists file,
        session = Some u
        /\ user rq = Some u
        /\ post_submitted rq = true
        /\ image rq = Some file
        /\ c = content rq
        /\ f = filename file
        /\ (f = "" \/ extension file ∈ ALLOWED_EXTENSIONS cfg)
        /\ (image_data file = true ->
            Z.of_nat (length (prune cfg now (default [] (upload_history st !! u))))
            < UPLOAD_LIMIT cfg
            /\ save_returns file = true).
Proof.
  split.
  - unfold stream. view_cases; intros Hin; simpl in Hin; view_cases;
      try discriminate.
    all: match goal with H : CreatePost _ _ _ = CreatePost _ _ _ |- _ =>
           injection H as <- <- <- end.
    all: subst.
    all: repeat match goal with
           | H : (_ <=? _) = false |- _ => apply Z.leb_gt in H
           end.
    all: eexists; repeat split; eauto; try congruence.
    all: now apply extension_check_passes.
  - intros (file & -> & Hu & Hs & Hfile & -> & -> & Hext & Hadm). unfold stream.
    rewrite Hu, Hs, Hfile, Z.eqb_refl. simpl.
    apply extension_check_passes in Hext. rewrite Hext.
    destruct (image_data file).
    + destruct (Hadm eq_refl) as [Hlt Hsave].
      destruct (Z.leb_spec (UPLOAD_LIMIT cfg)
                  (Z.of_nat (length (prune cfg now (default [] (upload_history st !! u))))));
        [lia|]. rewrite Hsave. simpl. right. now left.
    + simpl. now left.
Qed.

(** X10.  Whenever [stream] calls [save], the file goes to
    [UPLOADS_FOLDER_PATH] under the secured name, that name is empty or has
    an allowed extension, and the upload time has already been stored as the
    newest entry of the uploader's history.  If [save] returns,
    [create_post] is called next and a failing INSERT only adds a flashed
    warning.  If [save] raises, as it does under the empty name, the answer
    is a 500 and [create_post] is not called.  In both cases the stored
    timestamp stays: the upload slot is consumed. *)
Theorem saved_files_are_counted (cfg : config) (session : option Z)
    (rq : stream_request) (now : Q) (st : limiter_state) (folder name : string) :
  In (SaveFile folder name) (hr_effects (stream cfg session rq now st)) ->
  exists uid file,
    session = Some uid
    /\ image rq = Some file
    /\ folder = UPLOADS_FOLDER_PATH cfg
    /\ name = filename file
    /\ (name = "" \/ extension file ∈ ALLOWED_EXTENSIONS cfg)
    /\ upload_history (hr_state (stream cfg session rq now st)) !! uid
       = Some (prune cfg now (default [] (upload_history st !! uid)) ++ [now])%list
    /\ (save_returns file = true ->
        hr_response (stream cfg session rq now st)
        = Redirect "stream" (Some (url_username rq))
        /\ hr_effects (stream cfg session rq now st)
           = SaveFile folder name
               :: CreatePost uid (content rq) name
               :: (if create_post_ok rq then []
                   else [Flash "Failed to create post!" "warning"]))
    /\ (save_returns file = false ->
        hr_response (stream cfg session rq now st) = InternalServerError
        /\ hr_effects (stream cfg session rq now st) = [SaveFile folder name]).
Proof.
  unfold stream. view_cases; intros Hin; simpl in Hin; view_cases;
    try discriminate.
  all: match goal with H : SaveFile _ _ = SaveFile _ _ |- _ =>
         injection H as <- <- end.
  all: subst.
  all: eexists _, _; repeat split; eauto;
    try (now apply extension_check_passes);
    try apply lookup_insert_eq; try congruence.
Qed.

(** ** Requests and the keys they touch *)

(** The views leave [last_post_times] to the hook. *)
Lemma handle_request_last_post_times (cfg : config) (rq : request) (now_ms now : Q)
    (st : limiter_state) :
  last_post_times (hr_state (handle_request cfg rq now_ms now st))
  = snd (rate_limit_post_requests cfg rq now_ms (last_post_times st)).
Proof.
  unfold handle_request.
  destruct (rate_limit_post_requests cfg rq now_ms (last_post_times st))
    as [[denied|] times]; simpl; [reflexivity|].
  destruct (target rq) as [irq|srq|other]; simpl; [| |reflexivity].
  - now destruct (index_frame cfg (session rq) irq now (set_last_post_times times st))
      as [-> _].
  - now destruct (stream_frame cfg (session rq) srq now (set_last_post_times times st))
      as [-> _].
Qed.

(** How one request changes [upload_history]: not at all, or by the admitted
    upload of the session's user. *)
Lemma handle_request_upload_history (cfg : config) (rq : request) (now_ms now : Q)
    (st : limiter_state) :
  upload_history (hr_state (handle_request cfg rq now_ms now st)) = upload_history st
  \/ exists uid srq,
       session rq = Some uid
       /\ target rq = RouteStream srq
       /\ reaches_upload_check cfg uid srq = true
       /\ is_429 (hr_response (handle_request cfg rq now_ms now st)) = false
       /\ Z.of_nat (length (prune cfg now (default [] (upload_history st !! uid))))
          < UPLOAD_LIMIT cfg
       /\ upload_history (hr_state (handle_request cfg rq now_ms now st))
          = <[uid := (prune cfg now (default [] (upload_history st !! uid))
                        ++ [now])%list]> (upload_history st).
Proof.
  unfold handle_request.
  destruct (rate_limit_post_requests cfg rq now_ms (last_post_times st))
    as [[denied|] times]; simpl; [now left|].
  destruct (target rq) as [irq|srq|other] eqn:Ht; simpl; [|clear Ht|now left].
  - left. now destruct (index_frame cfg (session rq) irq now
                          (set_last_post_times times st)) as [_ ->].
  - destruct (session rq) as [uid|] eqn:Hs; [|now left].
    destruct (reaches_upload_check cfg uid srq) eqn:Hreach.
    + destruct (reaches_upload_check_file cfg uid srq Hreach) as [file Hfile].
      rewrite (stream_upload cfg uid srq file now _ Hfile Hreach). simpl.
      destruct (Z.leb_spec (UPLOAD_LIMIT cfg)
                  (Z.of_nat (length (prune cfg now
                                       (default [] (upload_history st !! uid))))));
        simpl; [now left|].
      right. exists uid, srq.
      destruct (save_returns file); repeat split; trivial.
    + left. revert Hreach. unfold stream, reaches_upload_check.
      handler_cases; trivial.
      all: repeat match goal with
             | H : negb _ = false |- _ => apply negb_false_iff in H
             | H : (_ =? _) = true |- _ => rewrite H
             end.
      all: simpl; discriminate.
Qed.

(** X11.  A request touches only its own keys: the cooldown timestamp of
    every identity other than the request's, the upload history of every user
    other than the session's and the attempt record of every username other
    than the one submitted are after the request what they were before.  In
    particular a user id and a remote address never share a cooldown. *)
Theorem requests_touch_only_their_keys (cfg : config) (rq : request)
    (now_ms now : Q) (st : limiter_state) :
  let st' := hr_state (handle_request cfg rq now_ms now st) in
  (forall k, k <> request_identity rq ->
             last_post_times st' !! k = last_post_times st !! k)
  /\ (forall uid address, session rq = Some uid ->
                          last_post_times st' !! AddrKey address
                          = last_post_times st !! AddrKey address)
  /\ (forall uid, session rq <> Some uid ->
                  upload_history st' !! uid = upload_history st !! uid)
  /\ (forall name,
        (forall irq, target rq = RouteIndex irq -> login_username irq <> Some name) ->
        login_attempts st' !! name = login_attempts st !! name).
Proof.
  intros st'. subst st'.
  assert (Hhook : forall k, k <> request_identity rq ->
                    last_post_times (hr_state (handle_request cfg rq now_ms now st)) !! k
                    = last_post_times st !! k).
  { intros k Hk. rewrite handle_request_last_post_times.
    destruct (rate_limit_cases cfg rq now_ms (last_post_times st))
      as [[w Hw]|[Hw|Hw]]; rewrite Hw; simpl; trivial.
    now apply lookup_insert_ne. }
  split; [exact Hhook|]. split; [|split].
  - intros uid address Hs. apply Hhook. unfold request_identity.
    rewrite Hs. discriminate.
  - intros uid Hs.
    destruct (handle_request_upload_history cfg rq now_ms now st)
      as [->|(u & srq & Hu & _ & _ & _ & _ & ->)]; [reflexivity|].
    apply lookup_insert_ne. congruence.
  - intros name Hname. unfold handle_request.
    destruct (rate_limit_post_requests cfg rq now_ms (last_post_times st))
      as [[denied|] times]; simpl; [reflexivity|].
    destruct (target rq) as [irq|srq|other] eqn:Ht; simpl; [| |reflexivity].
    + specialize (Hname irq eq_refl).
      unfold index. handler_cases; trivial.
      apply lookup_insert_ne.
      destruct (login_username irq) as [n|]; simpl in *; [congruence|discriminate].
    + now destruct (stream_frame cfg (session rq) srq now
                      (set_last_post_times times st)) as [_ ->].
Qed.

(** A POST that passes the hook leaves its timestamp behind. *)
Lemma rate_limit_passed_post (cfg : config) (rq : request) (now_ms : Q)
    (times : gmap identity Q) :
  method rq = "POST" ->
  fst (rate_limit_post_requests cfg rq now_ms times) = None ->
  snd (rate_limit_post_requests cfg rq now_ms times)
  = <[request_identity rq := now_ms]> times.
Proof.
  unfold rate_limit_post_requests. intros ->. simpl.
  destruct (Qltb _ _); simpl; [discriminate|reflexivity].
Qed.

(** X12.  Once a POST of an identity has passed the hook with the computed
    time [ms1] (its [time.time() * 1000]), every POST of that identity whose
    computed time [ms2] is less than [COOLDOWN_MS] after [ms1] is answered 429
    before any view runs: nothing is flashed, saved or inserted, no login is
    evaluated and no map changes. *)
Theorem post_within_cooldown_is_rejected (cfg : config) (rq1 rq2 : request)
    (ms1 now1 ms2 now2 : Q) (st : limiter_state) :
  method rq1 = "POST" ->
  fst (rate_limit_post_requests cfg rq1 ms1 (last_post_times st)) = None ->
  method rq2 = "POST" ->
  request_identity rq2 = request_identity rq1 ->
  (ms2 - ms1 < inject_Z (COOLDOWN_MS cfg))%Q ->
  let st1 := hr_state (handle_request cfg rq1 ms1 now1 st) in
  handle_request cfg rq2 ms2 now2 st1
  = finish (Json (RateLimitWait
                    (py_int (inject_Z (COOLDOWN_MS cfg)
                             - (ms2 - ms1)))) 429) [] st1.
Proof.
  intros Hm1 Hadm Hm2 Hid Hsoon st1.
  assert (Hlast : last_post_times st1 !! request_identity rq2 = Some ms1).
  { subst st1.
    rewrite handle_request_last_post_times, Hid,
      (rate_limit_passed_post cfg rq1 ms1 _ Hm1 Hadm).
    apply lookup_insert_eq. }
  unfold handle_request.
  rewrite (rate_limit_denied cfg rq2 ms2 (last_post_times st1) Hm2);
    rewrite Hlast; simpl; [|exact Hsoon].
  now rewrite set_last_post_times_id.
Qed.

(** ** What the limiters guarantee over a whole run *)

Lemma admitted_posts_spaced (cfg : config) (k : identity) (evs : list event) :
  forall st : limiter_state,
    spaced_from cfg (default 0%Q (last_post_times st !! k))
      (admitted_posts cfg k st evs).
Proof.
  induction evs as [|ev evs IH]; intros st; simpl; [exact I|].
  pose proof (IH (hr_state (handle_request cfg (ev_request ev) (ev_now_ms ev)
                              (ev_now ev) st))) as IH'.
  rewrite handle_request_last_post_times in IH'.
  revert IH'. unfold post_admitted, rate_limit_post_requests.
  destruct (String.eqb (method (ev_request ev)) "POST"); simpl; [|trivial].
  destruct (Qltb _ _) eqn:Hcmp; simpl.
  - rewrite andb_false_r. trivial.
  - rewrite andb_true_r.
    destruct (decide (request_identity (ev_request ev) = k)) as [<-|Hne].
    + rewrite bool_decide_eq_true_2 by reflexivity.
      rewrite lookup_insert_eq. simpl. intros IH'. split; [|exact IH'].
      now apply Qltb_ge.
    + rewrite bool_decide_eq_false_2 by assumption.
      now rewrite lookup_insert_ne.
Qed.

(** X13.  However the requests arrive and whatever the clock does, the POSTs
    of one identity that the hook lets through are at least [COOLDOWN_MS]
    apart by the times the hook computes for them ([time.time() * 1000], the
    values it compares and stores): each admitted time is at least
    [COOLDOWN_MS] after the previous admitted one, and the first at least
    [COOLDOWN_MS] after 0. *)
Theorem admitted_posts_are_spaced (cfg : config) (k : identity) (evs : list event) :
  spaced_from cfg 0 (admitted_posts cfg k initial_state evs).
Proof.
  apply (admitted_posts_spaced cfg k evs initial_state).
Qed.

Lemma prune_prune (cfg : config) (s0 s : Q) (l : list Q) :
  (s0 <= s)%Q -> prune cfg s (prune cfg s0 l) = prune cfg s l.
Proof.
  intros Hle. unfold prune. induction l as [|t l IH]; simpl; [reflexivity|].
  destruct (Qltb (s0 - t) (inject_Z (UPLOAD_WINDOW cfg))) eqn:H0; simpl.
  - now rewrite IH.
  - rewrite IH. destruct (Qltb (s - t) (inject_Z (UPLOAD_WINDOW cfg))) eqn:Hs;
      [|reflexivity].
    apply Qltb_lt in Hs. apply Qltb_ge in H0. lra.
Qed.

Lemma prune_app (cfg : config) (s : Q) (l1 l2 : list Q) :
  prune cfg s (l1 ++ l2) = (prune cfg s l1 ++ prune cfg s l2)%list.
Proof. unfold prune. apply List.filter_app. Qed.

(** One event either is no admitted upload and leaves [upload_history] alone,
    or is the admitted upload of exactly one user and appends its time to
    that user's pruned history. *)
Lemma upload_step (cfg : config) (ev : event) (st : limiter_state) :
  let st' := hr_state (handle_request cfg (ev_request ev) (ev_now_ms ev) (ev_now ev) st) in
  (upload_history st' = upload_history st
   /\ forall uid, upload_admitted cfg uid ev st = false)
  \/ exists u,
       upload_admitted cfg u ev st = true
       /\ (forall uid, uid <> u -> upload_admitted cfg uid ev st = false)
       /\ Z.of_nat (length (prune cfg (ev_now ev) (default [] (upload_history st !! u))))
          < UPLOAD_LIMIT cfg
       /\ upload_history st'
          = <[u := (prune cfg (ev_now ev) (default [] (upload_history st !! u))
                      ++ [ev_now ev])%list]> (upload_history st).
Proof.
  intros st'. subst st'. unfold upload_admitted.
  set (rq := ev_request ev).
  destruct (session rq) as [u|] eqn:Hs.
  2:{ left. split; [|reflexivity].
      destruct (handle_request_upload_history cfg rq (ev_now_ms ev) (ev_now ev) st)
        as [H|(u & srq & Hu & _)]; [exact H|congruence]. }
  destruct (target rq) as [irq|srq|other] eqn:Ht.
  1,3: left; split; [|reflexivity];
    destruct (handle_request_upload_history cfg rq (ev_now_ms ev) (ev_now ev) st)
      as [H|(u' & srq & _ & Hsrq & _)]; [exact H|congruence].
  destruct (reaches_upload_check cfg u srq) eqn:Hreach.
  2:{ left. split; [|intros uid; now rewrite andb_false_r].
      destruct (handle_request_upload_history cfg rq (ev_now_ms ev) (ev_now ev) st)
        as [H|(u' & srq' & Hu & Hsrq & Hr & _)]; [exact H|congruence]. }
  destruct (reaches_upload_check_file cfg u srq Hreach) as [file Hfile].
  unfold handle_request.
  destruct (rate_limit_cases cfg rq (ev_now_ms ev) (last_post_times st))
    as [[w Hw]|[Hw|Hw]]; rewrite Hw; simpl.
  - left. split; [reflexivity|]. intros uid. now rewrite andb_false_r.
  - rewrite Ht, Hs, (stream_upload cfg u srq file (ev_now ev) _ Hfile Hreach). simpl.
    destruct (Z.leb_spec (UPLOAD_LIMIT cfg)
                (Z.of_nat (length (prune cfg (ev_now ev)
                                     (default [] (upload_history st !! u)))))); simpl.
    + left. split; [reflexivity|]. intros uid. now rewrite andb_false_r.
    + right. exists u. rewrite Z.eqb_refl.
      destruct (save_returns file); repeat split; trivial.
      all: intros uid Hne; destruct (Z.eqb_spec u uid); [congruence|reflexivity].
  - rewrite Ht, Hs, (stream_upload cfg u srq file (ev_now ev) _ Hfile Hreach). simpl.
    destruct (Z.leb_spec (UPLOAD_LIMIT cfg)
                (Z.of_nat (length (prune cfg (ev_now ev)
                                     (default [] (upload_history st !! u)))))); simpl.
    + left. split; [reflexivity|]. intros uid. now rewrite andb_false_r.
    + right. exists u. rewrite Z.eqb_refl.
      destruct (save_returns file); repeat split; trivial.
      all: intros uid Hne; destruct (Z.eqb_spec u uid); [congruence|reflexivity].
Qed.

(** While the clock does not go back, the stored history and the list of
    admitted uploads agree on everything a later check can still count. *)
Lemma admitted_uploads_within_limit_from (cfg : config) (uid : Z) (evs : list event) :
  forall (st : limiter_state) (earlier : list Q) (m : Q),
    (forall s, (m <= s)%Q ->
               prune cfg s (default [] (upload_history st !! uid))
               = prune cfg s earlier) ->
    nondecreasing_from m (map ev_now evs) ->
    within_limit cfg earlier (admitted_uploads cfg uid st evs).
Proof.
  induction evs as [|ev evs IH]; intros st earlier m Hagree Hclock; simpl;
    [exact I|].
  destruct Hclock as [Hm Hclock].
  destruct (upload_step cfg ev st) as [[Hsame Hnot]|(u & Hyes & Hothers & Hlt & Hnew)].
  - rewrite Hnot. apply (IH _ earlier (ev_now ev)); [|exact Hclock].
    intros s Hle. rewrite Hsame. apply Hagree.
    now apply Qle_trans with (ev_now ev).
  - destruct (decide (uid = u)) as [->|Hne].
    + rewrite Hyes. simpl. split.
      * rewrite <- (Hagree (ev_now ev) Hm). exact Hlt.
      * apply (IH _ _ (ev_now ev)); [|exact Hclock].
        intros s Hle. rewrite Hnew, lookup_insert_eq. simpl.
        rewrite !prune_app, (prune_prune cfg (ev_now ev) s _ Hle).
        rewrite Hagree by (now apply Qle_trans with (ev_now ev)). reflexivity.
    + rewrite (Hothers uid Hne). apply (IH _ earlier (ev_now ev)); [|exact Hclock].
      intros s Hle. rewrite Hnew, lookup_insert_ne by congruence.
      apply Hagree. now apply Qle_trans with (ev_now ev).
Qed.

Lemma count_trailing_app (cfg : config) (x : Q) (l1 l2 : list Q) :
  count_trailing cfg x (l1 ++ l2)
  = (count_trailing cfg x l1 + count_trailing cfg x l2)%nat.
Proof. unfold count_trailing. now rewrite List.filter_app, length_app. Qed.

(** What lies in the window ending at [x] is less than a window old at any
    time [a] of that window. *)
Lemma count_trailing_le_prune_at (cfg : config) (a x : Q) (l : list Q) :
  (a <= x)%Q ->
  (count_trailing cfg x l <= length (prune cfg a l))%nat.
Proof.
  intros Hax. unfold count_trailing, prune.
  induction l as [|t l IH]; simpl; [lia|].
  destruct (Qltb (x - t) (inject_Z (UPLOAD_WINDOW cfg))) eqn:Hx; simpl.
  - assert (Ha : Qltb (a - t) (inject_Z (UPLOAD_WINDOW cfg)) = true)
      by (apply Qltb_lt; apply Qltb_lt in Hx; lra).
    rewrite Ha. destruct (Qle_bool t x); simpl; lia.
  - destruct (Qltb (a - t) (inject_Z (UPLOAD_WINDOW cfg))); simpl; lia.
Qed.

Lemma admitted_uploads_window_from (cfg : config) (uid : Z) (evs : list event) :
  forall (st : limiter_state) (earlier : list Q) (m : Q),
    (forall s, (m <= s)%Q ->
               prune cfg s (default [] (upload_history st !! uid))
               = prune cfg s earlier) ->
    nondecreasing_from m (map ev_now evs) ->
    (forall x, Z.of_nat (count_trailing cfg x earlier) <= UPLOAD_LIMIT cfg) ->
    forall x,
      Z.of_nat (count_trailing cfg x (earlier ++ admitted_uploads cfg uid st evs))
      <= UPLOAD_LIMIT cfg.
Proof.
  induction evs as [|ev evs IH]; intros st earlier m Hagree Hclock Hbound; simpl.
  - intros x. rewrite app_nil_r. apply Hbound.
  - destruct Hclock as [Hm Hclock].
    destruct (upload_step cfg ev st)
      as [[Hsame Hnot]|(u & Hyes & Hothers & Hlt & Hnew)].
    + rewrite Hnot. apply (IH _ earlier (ev_now ev)); [|exact Hclock|exact Hbound].
      intros s Hle. rewrite Hsame. apply Hagree.
      now apply Qle_trans with (ev_now ev).
    + destruct (decide (uid = u)) as [->|Hne].
      * rewrite Hyes. intros x.
        change (ev_now ev :: admitted_uploads cfg u
                  (hr_state (handle_request cfg (ev_request ev) (ev_now_ms ev)
                               (ev_now ev) st)) evs)
          with ([ev_now ev] ++ admitted_uploads cfg u
                  (hr_state (handle_request cfg (ev_request ev) (ev_now_ms ev)
                               (ev_now ev) st)) evs)%list.
        rewrite app_assoc.
        apply (IH _ _ (ev_now ev)); [|exact Hclock|].
        -- intros s Hle. rewrite Hnew, lookup_insert_eq. simpl.
           rewrite !prune_app, (prune_prune cfg (ev_now ev) s _ Hle).
           rewrite Hagree by (now apply Qle_trans with (ev_now ev)). reflexivity.
        -- intros y. rewrite count_trailing_app.
           rewrite (Hagree (ev_now ev) Hm) in Hlt.
           unfold count_trailing at 2. simpl.
           destruct (Qltb (y - ev_now ev) (inject_Z (UPLOAD_WINDOW cfg))) eqn:Hy;
             simpl; [|specialize (Hbound y); lia].
           destruct (Qle_bool (ev_now ev) y) eqn:Hle; simpl;
             [|specialize (Hbound y); lia].
           apply Qle_bool_iff in Hle.
           pose proof (count_trailing_le_prune_at cfg (ev_now ev) y earlier Hle).
           lia.
      * rewrite (Hothers uid Hne).
        apply (IH _ earlier (ev_now ev)); [|exact Hclock|exact Hbound].
        intros s Hle. rewrite Hnew, lookup_insert_ne by congruence.
        apply Hagree. now apply Qle_trans with (ev_now ev).
Qed.

(** X14.  While the clock readings of the requests never go back, every
    admitted upload of a user has fewer than [UPLOAD_LIMIT] admitted uploads
    of that user less than [UPLOAD_WINDOW] seconds before it, and (for a
    non-negative limit) at most [UPLOAD_LIMIT] admitted uploads of the user
    lie in any trailing interval [(x - UPLOAD_WINDOW, x]]: the lazily pruned
    history loses nothing that could still count. *)
Theorem admitted_uploads_within_limit (cfg : config) (uid : Z) (evs : list event)
    (m : Q) :
  nondecreasing_from m (map ev_now evs) ->
  within_limit cfg [] (admitted_uploads cfg uid initial_state evs)
  /\ (0 <= UPLOAD_LIMIT cfg ->
      forall x : Q,
        Z.of_nat (count_trailing cfg x (admitted_uploads cfg uid initial_state evs))
        <= UPLOAD_LIMIT cfg).
Proof.
  intros Hclock.
  assert (Hagree : forall s, (m <= s)%Q ->
                     prune cfg s (default [] (upload_history initial_state !! uid))
                     = prune cfg s []).
  { intros s _. unfold initial_state. simpl. now rewrite lookup_empty. }
  split.
  - now apply (admitted_uploads_within_limit_from cfg uid evs initial_state [] m).
  - intros Hlimit x.
    apply (admitted_uploads_window_from cfg uid evs initial_state [] m Hagree Hclock).
    intros y. exact Hlimit.
Qed.

(** How one request changes [login_attempts]: not at all, or by storing the
    cleared record for one username. *)
Lemma handle_request_login_attempts (cfg : config) (rq : request) (now_ms now : Q)
    (st : limiter_state) :
  login_attempts (hr_state (handle_request cfg rq now_ms now st)) = login_attempts st
  \/ exists username,
       login_attempts (hr_state (handle_request cfg rq now_ms now st))
       = <[username := {| attempts := 0; last_attempt := 0 |}]> (login_attempts st).
Proof.
  unfold handle_request.
  destruct (rate_limit_post_requests cfg rq now_ms (last_post_times st))
    as [[denied|] times]; simpl; [now left|].
  destruct (target rq) as [irq|srq|other]; simpl; [| |now left].
  - unfold index. handler_cases; try (now left). right. eexists. reflexivity.
  - left. now destruct (stream_frame cfg (session rq) srq now
                          (set_last_post_times times st)) as [_ ->].
Qed.

Lemma handle_request_never_shrinks (cfg : config) (rq : request) (now_ms now : Q)
    (st : limiter_state) :
  dom (last_post_times st)
    ⊆ dom (last_post_times (hr_state (handle_request cfg rq now_ms now st)))
  /\ dom (upload_history st)
    ⊆ dom (upload_history (hr_state (handle_request cfg rq now_ms now st)))
  /\ dom (login_attempts st)
    ⊆ dom (login_attempts (hr_state (handle_request cfg rq now_ms now st))).
Proof.
  split; [|split].
  - rewrite handle_request_last_post_times.
    destruct (rate_limit_cases cfg rq now_ms (last_post_times st))
      as [[w Hw]|[Hw|Hw]]; rewrite Hw; simpl; try reflexivity.
    apply dom_insert_subseteq.
  - destruct (handle_request_upload_history cfg rq now_ms now st)
      as [->|(u & srq & _ & _ & _ & _ & _ & ->)]; [reflexivity|].
    apply dom_insert_subseteq.
  - destruct (handle_request_login_attempts cfg rq now_ms now st)
      as [->|(u & ->)]; [reflexivity|].
    apply dom_insert_subseteq.
Qed.

(** X15.  No entry of the three maps is ever removed: whatever requests are
    served from a state, every identity, user and username that had an entry
    still has one afterwards. *)
Theorem limiter_maps_never_shrink (cfg : config) (evs : list event)
    (st : limiter_state) :
  dom (last_post_times st) ⊆ dom (last_post_times (run_from cfg st evs))
  /\ dom (upload_history st) ⊆ dom (upload_history (run_from cfg st evs))
  /\ dom (login_attempts st) ⊆ dom (login_attempts (run_from cfg st evs)).
Proof.
  revert st. induction evs as [|ev evs IH]; intros st; simpl;
    [repeat split; reflexivity|].
  destruct (handle_request_never_shrinks cfg (ev_request ev) (ev_now_ms ev)
              (ev_now ev) st) as (H1 & H2 & H3).
  destruct (IH (hr_state (handle_request cfg (ev_request ev) (ev_now_ms ev)
                            (ev_now ev) st))) as (I1 & I2 & I3).
  repeat split; etransitivity; eassumption.
Qed.

Lemma run_snoc (cfg : config) (evs : list event) (ev : event) :
  run cfg (evs ++ [ev])
  = hr_state (handle_request cfg (ev_request ev) (ev_now_ms ev) (ev_now ev)
                (run cfg evs)).
Proof. unfold run, run_from. now rewrite fold_left_app. Qed.

Lemma admitted_uploads_snoc (cfg : config) (uid : Z) (evs : list event) (ev : event) :
  forall st : limiter_state,
    admitted_uploads cfg uid st (evs ++ [ev])
    = (admitted_uploads cfg uid st evs
       ++ (if upload_admitted cfg uid ev (run_from cfg st evs)
           then [ev_now ev] else []))%list.
Proof.
  induction evs as [|ev0 evs IH]; intros st; simpl.
  - now destruct (upload_admitted cfg uid ev st).
  - rewrite IH. now destruct (upload_admitted cfg uid ev0 st).
Qed.

(** The stored history of a user against the list of their admitted
    uploads. *)
Lemma stored_history_tracks_admitted (cfg : config) (uid : Z) (evs : list event) :
  match upload_history (run cfg evs) !! uid with
  | None => admitted_uploads cfg uid initial_state evs = []
  | Some l =>
      exists (pre earlier : list Q) (latest : Q),
        l = (pre ++ [latest])%list
        /\ admitted_uploads cfg uid initial_state evs = (earlier ++ [latest])%list
        /\ forall t, In t pre -> (latest - t < inject_Z (UPLOAD_WINDOW cfg))%Q
  end.
Proof.
  induction evs as [|ev evs IH] using rev_ind.
  - unfold run, initial_state. simpl. now rewrite lookup_empty.
  - rewrite run_snoc, admitted_uploads_snoc. fold (run cfg evs).
    destruct (upload_step cfg ev (run cfg evs))
      as [[Hsame Hnot]|(u & Hyes & Hothers & _ & Hnew)].
    + rewrite Hsame, Hnot, app_nil_r. exact IH.
    + rewrite Hnew. destruct (decide (uid = u)) as [->|Hne].
      * rewrite lookup_insert_eq, Hyes.
        exists (prune cfg (ev_now ev) (default [] (upload_history (run cfg evs) !! u))),
          (admitted_uploads cfg u initial_state evs), (ev_now ev).
        repeat split. intros t Hin. now apply prune_In in Hin.
      * rewrite lookup_insert_ne by congruence.
        rewrite (Hothers uid Hne), app_nil_r. exact IH.
Qed.

(** X16.  After any sequence of requests since process start, a user has a
    stored upload history exactly when one of their uploads has been
    admitted; the history is then not empty, it ends with the time of the
    user's latest admitted upload, and every other time in it is less than
    [UPLOAD_WINDOW] older than that one. *)
Theorem stored_history_shape (cfg : config) (evs : list event) (uid : Z) :
  (upload_history (run cfg evs) !! uid = None
   <-> admitted_uploads cfg uid initial_state evs = [])
  /\ (forall l : list Q,
        upload_history (run cfg evs) !! uid = Some l ->
        exists (pre earlier : list Q) (latest : Q),
          l = (pre ++ [latest])%list
          /\ admitted_uploads cfg uid initial_state evs = (earlier ++ [latest])%list
          /\ forall t, In t pre -> (latest - t < inject_Z (UPLOAD_WINDOW cfg))%Q).
Proof.
  pose proof (stored_history_tracks_admitted cfg uid evs) as H.
  destruct (upload_history (run cfg evs) !! uid) as [l|].
  - destruct H as (pre & earlier & latest & Hl & Hadm & Hwin). split.
    + split; [discriminate|]. rewrite Hadm. intros Hnil.
      symmetry in Hnil. now apply app_cons_not_nil in Hnil.
    + intros l' [= <-]. now exists pre, earlier, latest.
  - split; [tauto|discriminate].
Qed.

(** ** The properties at sample requests *)

(** Alice's request makes [friends] call [add_friend(1, 7)]; so Bob exists,
    is not Alice and was not her friend. *)
Lemma friends_adds_only_new_friends_witness :
  In (AddFriend 1 7) (vr_effects (friends (Some 1) alice_adds_bob))
  /\ fr_friend alice_adds_bob = Some 7
  /\ 7 <> 1
  /\ 7 ∉ fr_friends alice_adds_bob.
Proof.
  assert (Hin : In (AddFriend 1 7) (vr_effects (friends (Some 1) alice_adds_bob)))
    by (simpl; now left).
  split; [exact Hin|].
  apply (proj1 (friends_adds_only_new_friends (Some 1) alice_adds_bob 1 7)) in Hin.
  destruct Hin as (_ & _ & _ & Hf & Hne & Hnew). repeat split; assumption.
Defined.

Lemma profile_updates_only_own_witness :
  In (UpdateProfile "alice" (pf_fields alice_edits_profile))
     (vr_effects (profile (Some 1) alice_edits_profile))
  /\ ~ In (UpdateProfile "alice" (pf_fields alice_edits_profile))
          (vr_effects (profile (Some 7) alice_edits_profile)).
Proof.
  split.
  - apply (proj2 (profile_updates_only_own (Some 1) alice_edits_profile "alice"
                    (pf_fields alice_edits_profile))).
    exists 1. repeat split.
  - intros Hin.
    apply (proj1 (profile_updates_only_own (Some 7) alice_edits_profile "alice"
                    (pf_fields alice_edits_profile))) in Hin.
    destruct Hin as (uid & Hs & Hu & _). simpl in Hu. congruence.
Defined.

Lemma comments_are_attributed_to_session_user_witness :
  In (CreateComment 42 1 "nice") (vr_effects (comments (Some 1) alice_comments))
  /\ cm_user alice_comments = Some 1.
Proof.
  assert (Hin : In (CreateComment 42 1 "nice")
                   (vr_effects (comments (Some 1) alice_comments)))
    by (simpl; now left).
  split; [exact Hin|].
  apply (proj1 (comments_are_attributed_to_session_user (Some 1) alice_comments
                  42 1 "nice")) in Hin.
  destruct Hin as (_ & Hu & _). exact Hu.
Defined.

Lemma session_set_only_on_password_match_witness :
  In (SetSessionUserId (Some 7))
     (hr_effects (index Config None bob_right_password (inject_Z 1700000000)
                    initial_state))
  /\ ~ In (SetSessionUserId (Some 7))
          (hr_effects (index Config None bob_wrong_password (inject_Z 1700000000)
                         initial_state)).
Proof.
  split.
  - apply (proj2 (session_set_only_on_password_match Config None bob_right_password
                    (inject_Z 1700000000) initial_state (Some 7))).
    repeat split; try reflexivity; try (eexists; reflexivity);
      try (vm_compute; congruence).
  - intros Hin.
    apply (proj1 (session_set_only_on_password_match Config None bob_wrong_password
                    (inject_Z 1700000000) initial_state (Some 7))) in Hin.
    destruct Hin as (_ & _ & _ & _ & _ & _ & Hm & _). discriminate.
Defined.

Lemma login_failure_indistinguishable_witness :
  index Config None nobody_logs_in (inject_Z 1700000000) initial_state
  = index Config None bob_wrong_password (inject_Z 1700000000) initial_state.
Proof.
  apply (login_failure_indistinguishable Config nobody_logs_in bob_wrong_password
           "bob" (inject_Z 1700000000) initial_state); reflexivity.
Defined.

Lemma registration_needs_all_fields_witness :
  In (CreateUser "carol" "Carol" "Jones" (pw_hash carol_registers))
     (hr_effects (index Config None carol_registers (inject_Z 1700000000)
                    initial_state))
  /\ ~ In (CreateUser "carol" "Carol" "Jones" (pw_hash carol_registers))
          (hr_effects (index Config (Some 7) carol_registers (inject_Z 1700000000)
                         initial_state)).
Proof.
  split.
  - apply (proj2 (registration_needs_all_fields Config None carol_registers
                    (inject_Z 1700000000) initial_state
                    "carol" "Carol" "Jones" (pw_hash carol_registers))).
    repeat split.
  - intros Hin.
    apply (proj1 (registration_needs_all_fields Config (Some 7) carol_registers
                    (inject_Z 1700000000) initial_state
                    "carol" "Carol" "Jones" (pw_hash carol_registers))) in Hin.
    destruct Hin as (Hs & _). discriminate.
Defined.

(** With [MAX_LOGIN_ATTEMPTS = 0] Bob's first login fails with the
    [KeyError]; with the shipped configuration it does not. *)
Lemma index_key_error_witness :
  hr_response (index zero_attempts_config None bob_right_password
                 (inject_Z 1700000000) initial_state) = InternalServerError
  /\ hr_response (index Config None bob_right_password
                    (inject_Z 1700000000) initial_state) <> InternalServerError.
Proof.
  split.
  - apply (proj1 (index_key_error zero_attempts_config None bob_right_password
                    (inject_Z 1700000000) initial_state)).
    repeat split; try reflexivity; try (eexists; reflexivity);
      try (vm_compute; congruence).
  - apply (proj2 (index_key_error Config None bob_right_password
                    (inject_Z 1700000000) initial_state)).
    vm_compute. congruence.
Defined.

(** Bob's record says five attempts, the last three hours ahead of the
    clock: his first submission clears the record, his second logs in. *)
Lemma reset_then_login_witness :
  let first := index Config None bob_right_password (inject_Z 1700000000)
                 (bob_recorded 5 10800) in
  hr_effects first = []
  /\ index Config None bob_right_password (inject_Z 1700000002) (hr_state first)
     = finish (Redirect "stream" (Some "bob")) [SetSessionUserId (Some 7)]
         (hr_state first).
Proof.
  intros first.
  destruct (reset_then_login Config bob_right_password "bob"
              (inject_Z 1700000000) (inject_Z 1700000002) (bob_recorded 5 10800)
              {| attempts := 5; last_attempt := inject_Z (1700000000 + 10800) |})
    as (He & _ & _ & Hlogin); try (vm_compute; congruence).
  split; [exact He|exact Hlogin].
Defined.

Lemma stream_posts_only_for_owner_witness :
  In (CreatePost 2 "look" "cat.png")
     (hr_effects (stream Config (Some 2) upload_by_user_2 (inject_Z 1700000000)
                    initial_state))
  /\ ~ In (CreatePost 2 "look" "cat.png")
          (hr_effects (stream Config (Some 9) upload_by_user_2 (inject_Z 1700000000)
                         initial_state))
  /\ ~ In (CreatePost 2 "look" "")
          (hr_effects (stream Config (Some 2) upload_with_empty_name
                         (inject_Z 1700000000) initial_state)).
Proof.
  split; [|split].
  - simpl. right. now left.
  - intros Hin.
    apply (proj1 (stream_posts_only_for_owner Config (Some 9) upload_by_user_2
                    (inject_Z 1700000000) initial_state 2 "look" "cat.png")) in Hin.
    destruct Hin as (file & Hs & _). discriminate.
  - intros Hin.
    apply (proj1 (stream_posts_only_for_owner Config (Some 2) upload_with_empty_name
                    (inject_Z 1700000000) initial_state 2 "look" "")) in Hin.
    destruct Hin as (file & _ & _ & _ & Hfile & _ & _ & _ & Hadm).
    injection Hfile as <-. destruct (Hadm eq_refl) as [_ Hsave]. discriminate.
Defined.

(** The file is saved and counted although the INSERT of the post fails; and
    under the empty secured name the upload is counted although [save]
    raises and no post is created. *)
Lemma saved_files_are_counted_witness :
  let res := stream Config (Some 2) upload_with_failing_insert
               (inject_Z 1700000000) initial_state in
  let bad := stream Config (Some 2) upload_with_empty_name
               (inject_Z 1700000000) initial_state in
  (In (SaveFile "uploads" "cat.png") (hr_effects res)
   /\ upload_history (hr_state res) !! 2 = Some [inject_Z 1700000000]
   /\ hr_effects res
      = [SaveFile "uploads" "cat.png"; CreatePost 2 "look" "cat.png";
         Flash "Failed to create post!" "warning"])
  /\ (In (SaveFile "uploads" "") (hr_effects bad)
      /\ upload_history (hr_state bad) !! 2 = Some [inject_Z 1700000000]
      /\ hr_response bad = InternalServerError
      /\ hr_effects bad = [SaveFile "uploads" ""]).
Proof.
  intros res bad. split.
  - assert (Hin : In (SaveFile "uploads" "cat.png") (hr_effects res))
      by (simpl; now left).
    split; [exact Hin|].
    destruct (saved_files_are_counted Config (Some 2) upload_with_failing_insert
                (inject_Z 1700000000) initial_state "uploads" "cat.png" Hin)
      as (uid & file & Hs & Hfile & _ & _ & _ & Hhist & Hok & _).
    injection Hs as <-. injection Hfile as <-.
    split; [exact Hhist|]. now destruct (Hok eq_refl).
  - assert (Hin : In (SaveFile "uploads" "") (hr_effects bad))
      by (simpl; now left).
    split; [exact Hin|].
    destruct (saved_files_are_counted Config (Some 2) upload_with_empty_name
                (inject_Z 1700000000) initial_state "uploads" "" Hin)
      as (uid & file & Hs & Hfile & _ & _ & _ & Hhist & _ & Hbad).
    injection Hs as <-. injection Hfile as <-.
    split; [exact Hhist|]. now destruct (Hbad eq_refl).
Defined.

(** User 2's upload at second 0 passes; the next POST half a second later is
    turned away by the hook. *)
Lemma post_within_cooldown_is_rejected_witness :
  let st1 := hr_state (handle_request Config post_upload_by_user_2
                         (inject_Z 1700000000000) (inject_Z 1700000000)
                         initial_state) in
  handle_request Config post_upload_by_user_2 (inject_Z 1700000000500) (3400000001 # 2) st1
  = finish (Json (RateLimitWait 500) 429) [] st1.
Proof.
  intros st1. subst st1.
  rewrite (post_within_cooldown_is_rejected Config post_upload_by_user_2
             post_upload_by_user_2 (inject_Z 1700000000000) (inject_Z 1700000000)
             (inject_Z 1700000000500) (3400000001 # 2) initial_state);
    try reflexivity.
Defined.

(** The spec's upload scenario: six of the seven uploads are admitted, and no
    window holds more than five of them. *)
Lemma admitted_uploads_within_limit_witness :
  nondecreasing_from (inject_Z 1700000000)
    (map ev_now (map upload_at [0; 10; 20; 30; 40; 45; 61]))
  /\ admitted_uploads Config 2 initial_state
       (map upload_at [0; 10; 20; 30; 40; 45; 61])
     = map (fun t => inject_Z (1700000000 + t)) [0; 10; 20; 30; 40; 61]
  /\ Z.of_nat (count_trailing Config (inject_Z 1700000061)
                 (admitted_uploads Config 2 initial_state
                    (map upload_at [0; 10; 20; 30; 40; 45; 61])))
     <= UPLOAD_LIMIT Config.
Proof.
  assert (Hclock : nondecreasing_from (inject_Z 1700000000)
                     (map ev_now (map upload_at [0; 10; 20; 30; 40; 45; 61])))
    by (simpl; repeat split; vm_compute; congruence).
  split; [exact Hclock|]. split; [vm_compute; reflexivity|].
  destruct (admitted_uploads_within_limit Config 2
              (map upload_at [0; 10; 20; 30; 40; 45; 61])
              (inject_Z 1700000000) Hclock) as [_ Hwin].
  apply Hwin. vm_compute. congruence.
Defined.

(** The spec's upload scenario: user 2's history ends with second 61, the
    time of their latest admitted upload. *)
Lemma stored_history_shape_witness :
  upload_history (run Config (map upload_at [0; 10; 20; 30; 40; 45; 61])) !! 2
  = Some (map (fun t => inject_Z (1700000000 + t)) [10; 20; 30; 40; 61])
  /\ exists (pre earlier : list Q) (latest : Q),
       map (fun t => inject_Z (1700000000 + t)) [10; 20; 30; 40; 61]
       = (pre ++ [latest])%list
       /\ admitted_uploads Config 2 initial_state
            (map upload_at [0; 10; 20; 30; 40; 45; 61])
          = (earlier ++ [latest])%list
       /\ forall t, In t pre -> (latest - t < inject_Z (UPLOAD_WINDOW Config))%Q.
Proof.
  assert (Hl : upload_history (run Config (map upload_at [0; 10; 20; 30; 40; 45; 61])) !! 2
               = Some (map (fun t => inject_Z (1700000000 + t)) [10; 20; 30; 40; 61]))
    by (vm_compute; reflexivity).
  split; [exact Hl|].
  destruct (stored_history_shape Config (map upload_at [0; 10; 20; 30; 40; 45; 61]) 2)
    as [_ Hshape].
  exact (Hshape _ Hl).
Defined.

Lemma requests_touch_only_their_keys_witness :
  last_post_times
    (hr_state (handle_request Config post_upload_by_user_2 (inject_Z 1700000000000)
                 (inject_Z 1700000000) initial_state)) !! AddrKey "10.0.0.8"
  = last_post_times initial_state !! AddrKey "10.0.0.8".
Proof.
  destruct (requests_touch_only_their_keys Config post_upload_by_user_2
              (inject_Z 1700000000000) (inject_Z 1700000000) initial_state)
    as (_ & Haddr & _).
  apply (Haddr 2). reflexivity.
Defined.
